(** * Name resolution of the script front end: torch/csrc/jit/script/init.cpp

    A shallow embedding of the [SugaredValue] variants defined in
    [init.cpp] ([PythonValue], [ConstantPythonValue], [MethodValue],
    [ModuleValue]) and of the [_has_parameter] / [_has_buffer] bindings,
    with the properties of their [call], [attr], [asValue] and
    [unrolledFor] members.

    C++ exceptions are results of an error monad that also threads the
    [Method] under construction (the [Method & m] / [Method & caller]
    argument of every member), so that what was emitted before a throw
    stays visible.  Python objects are an inductive type on which the
    pybind11 calls of [init.cpp] are functions.  [Module], [Method] and the
    graph come from headers that are not among the sources; they are kept
    to what [init.cpp] uses of them.  A [Module] is a finite tree: a module
    is not its own submodule.  [ModuleValue::unrolledFor] and the bindings
    other than the two above are left out. *)

From Stdlib Require Import List Ascii String ZArith Bool Arith Lia.
From Stdlib Require Import Floats.PrimFloat.
From Equations Require Import Equations.
From Equations.Prop Require Import Logic.
Import ListNotations.
Open Scope string_scope.
Open Scope list_scope.
Open Scope nat_scope.
Set Warnings "-register-all".

(** ** Host (Python) objects, as seen through pybind11 *)

Module Py.

(** The host objects the front end can meet.  Each constructor stands for
    the objects on which the pybind11 type checks used in [init.cpp] give
    one answer; objects that have attributes carry them. *)
Inductive object : Type :=
| None_                                   (* the None singleton *)
| Bool (b : bool)                         (* True / False *)
| Int (z : Z)                             (* int, arbitrary precision *)
| Float (d : float)                       (* float, a binary64 *)
| Str (s : string)
| Tuple (elts : list object)
| StrSet (elts : list string)             (* a set whose elements are str *)
| Callable (type_name : string) (name : string)
                                          (* a function or other callable *)
| Namespace (name : string) (members : list (string * object))
                                          (* a types.ModuleType instance,
                                             known by its sys.modules key *)
| NNModule (type_name : string) (members : list (string * object))
                                          (* an instance of torch.nn.Module *)
| Instance (type_name : string) (members : list (string * object)).
                                          (* any other object *)

(** [py::isinstance<py::int_>] is [PyLong_Check], which accepts every
    subclass of int; bool is one. *)
Definition isinstance_int (o : object) : bool :=
  match o with Int _ | Bool _ => true | _ => false end.

(** [py::isinstance<py::float_>] is [PyFloat_Check]. *)
Definition isinstance_float (o : object) : bool :=
  match o with Float _ => true | _ => false end.

(** [py::isinstance<py::bool_>] is [PyBool_Check]. *)
Definition isinstance_bool (o : object) : bool :=
  match o with Bool _ => true | _ => false end.

(** [py::isinstance<py::tuple>] is [PyTuple_Check]. *)
Definition isinstance_tuple (o : object) : bool :=
  match o with Tuple _ => true | _ => false end.

(** [py::isinstance<py::function>] is [PyCallable_Check]: any callable.
    torch.nn.Module defines [__call__], so its instances are callable. *)
Definition isinstance_function (o : object) : bool :=
  match o with Callable _ _ | NNModule _ _ => true | _ => false end.

(** [py::isinstance<py::module>] is [PyModule_Check]. *)
Definition isinstance_module (o : object) : bool :=
  match o with Namespace _ _ => true | _ => false end.

(** [py::isinstance(o, py::module::import("torch.nn").attr("Module"))]. *)
Definition isinstance_nn_Module (o : object) : bool :=
  match o with NNModule _ _ => true | _ => false end.

(** [type(o).__name__]. *)
Definition type_name (o : object) : string :=
  match o with
  | None_ => "NoneType"
  | Bool _ => "bool"
  | Int _ => "int"
  | Float _ => "float"
  | Str _ => "str"
  | Tuple _ => "tuple"
  | StrSet _ => "set"
  | Callable t _ => t
  | Namespace _ _ => "module"
  | NNModule t _ => t
  | Instance t _ => t
  end.

Fixpoint lookup (members : list (string * object)) (name : string)
  : option object :=
  match members with
  | [] => None
  | (k, v) :: rest => if String.eqb k name then Some v else lookup rest name
  end.

(** The attributes of an object: [PyObject_GetAttrString] returns the
    member, or NULL with an AttributeError set. *)
Definition members_of (o : object) : list (string * object) :=
  match o with
  | Namespace _ ms | NNModule _ ms | Instance _ ms => ms
  | _ => []
  end.

Definition GetAttrString (o : object) (name : string) : option object :=
  lookup (members_of o) name.

(** A [py::object] is a handle that may hold the null pointer; [None] here
    is the null handle, [Some None_] is a handle on Python's None. *)
Definition handle : Type := option object.

(** [explicit operator bool() const { return m_ptr != nullptr; }] *)
Definition handle_bool (h : handle) : bool :=
  match h with Some _ => true | None => false end.

(** The three-argument [py::getattr(obj, name, default_)]: the attribute,
    or, when the lookup fails, the error is cleared and a handle on
    [default_] is returned. *)
Definition getattr_default (o : object) (name : string) (default_ : object)
  : handle :=
  match GetAttrString o name with
  | Some r => Some r
  | None => Some default_
  end.

(** [obj.contains(item)] calls [obj.__contains__(item)] with a str item;
    [None] stands for the Python exception raised when the object has no
    such method. *)
Definition contains (o : object) (item : string) : option bool :=
  match o with
  | StrSet elts => Some (existsb (String.eqb item) elts)
  | Tuple elts =>
      Some (existsb (fun e => match e with
                              | Str s => String.eqb item s
                              | _ => false
                              end) elts)
  | _ => None
  end.

(** [self.is(torch) || self.is(functional)], identity with the objects
    [py::module::import] returns for "torch" and "torch.nn.functional". *)
Definition is_imported (o : object) (path : string) : bool :=
  match o with
  | Namespace name _ => String.eqb name path
  | _ => false
  end.

(** [py::cast<int32_t>]: pybind11's integer caster reads the value with
    [PyLong_AsLong] (bool included) and refuses one that does not fit the
    target type; the cast then throws [py::cast_error]. *)
Definition cast_int32 (o : object) : option Z :=
  match o with
  | Int z =>
      if ((- 2147483648 <=? z) && (z <=? 2147483647))%Z then Some z else None
  | Bool b => Some (if b then 1%Z else 0%Z)
  | _ => None
  end.

(** [py::cast<bool>], on the bool objects it is applied to. *)
Definition cast_bool (o : object) : option bool :=
  match o with
  | Bool b => Some b
  | _ => None
  end.

(** [py::tuple tup = o] for an [o] that is a tuple: its items, in order. *)
Definition tuple_items (o : object) : list object :=
  match o with
  | Tuple elts => elts
  | _ => []
  end.

(** [py::cast<float>]: the binary64 held by a Python float, to be narrowed
    to a C float; the narrowing is left symbolic in [Scalar] below. *)
Definition cast_float (o : object) : option float :=
  match o with
  | Float d => Some d
  | _ => None
  end.

End Py.

(** ** The graph IR and the compilation unit

    [ir.h] and [module.h] are not among the sources; the graph, [Method]
    and [Module] below carry what [init.cpp] reads and writes. *)

Record SourceRange : Type := { range_start : nat; range_end : nat }.

(** A [Value*]: one dataflow edge, known by the number the graph gave it. *)
Record Value : Type := { unique : nat }.

Inductive ScalarType : Type := kByte | kInt | kFloat.

Inductive Scalar : Type :=
| ScalarInt (z : Z)
| ScalarFloat (d : float).       (* a C float: the host binary64, narrowed *)

Record Tensor : Type :=
  { scalar_type : ScalarType; sizes : list nat; item : Scalar }.

(** [at::CPU(ty).scalarTensor(s)]: a tensor of no dimension holding [s]. *)
Definition scalarTensor (ty : ScalarType) (s : Scalar) : Tensor :=
  {| scalar_type := ty; sizes := []; item := s |}.

Definition Scalar_of_int32 (z : Z) : Scalar := ScalarInt z.
Definition Scalar_of_float (d : float) : Scalar := ScalarFloat d.
Definition Scalar_of_bool (b : bool) : Scalar :=
  ScalarInt (if b then 1 else 0).

Inductive NodeKind : Type :=
| PythonOp (func : Py.object) (cconv : string)
| Constant (val : Tensor)
| Builtin (name : string)
| InlinedCall (callee : string).

Record Node : Type :=
  { kind_of : NodeKind;
    source_location : option SourceRange;
    node_inputs : list Value;
    node_outputs : list Value }.

Record Graph : Type :=
  { graph_inputs : list Value;
    graph_nodes : list Node;
    graph_outputs : list Value;
    next_unique : nat }.

(** A parameter's storage slot, an [at::Tensor*], known by its address. *)
Definition Slot : Type := nat.

(** Modelled from the spec: [Method] is declared in module.h, which is
    missing: a compiled subroutine owning a graph, with a fixed declared
    input count; the parameters it captured are implicit extra inputs of
    its graph. *)
Record Method : Type :=
  { method_name : string;
    graph : Graph;
    member_inputs : list (Slot * Value) }.

Record NamedParameter : Type :=
  { param_name : string; is_buffer : bool; slot : Slot }.

(** Modelled from the spec: [Module] is declared in module.h, which is
    missing: named submodules, named parameters and named compiled
    methods, each kept in registration order. *)
Inductive Module : Type :=
  Build_Module (modules : list (string * Module))
               (parameters : list NamedParameter)
               (methods : list Method).

Record NamedModule : Type := { name : string; module : Module }.

Definition get_modules (m : Module) : list NamedModule :=
  match m with
  | Build_Module ms _ _ => map (fun p => {| name := fst p; module := snd p |}) ms
  end.

Definition get_parameters (m : Module) : list NamedParameter :=
  match m with Build_Module _ ps _ => ps end.

Definition get_methods (m : Module) : list Method :=
  match m with Build_Module _ _ ms => ms end.

(** Modelled from the spec: the lookups of module.h, which is missing; each
    returns the entry registered under the name, if any. *)
Definition find_module (m : Module) (field : string) : option NamedModule :=
  find (fun nm => String.eqb (name nm) field) (get_modules m).

Definition find_method (m : Module) (field : string) : option Method :=
  find (fun me => String.eqb (method_name me) field) (get_methods m).

Definition find_parameter (m : Module) (field : string)
  : option NamedParameter :=
  find (fun p => String.eqb (param_name p) field) (get_parameters m).

(** ** Exceptions and the compilation monad *)

(** What is streamed into an [ErrorReport] with [<<]. *)
Inductive msg_item : Type :=
| Text (s : string)
| Count (n : nat)                (* a [size_t] *)
| Repr (o : Py.object).          (* [py::repr(o)] *)

Inductive Capability : Type := CanCall | CanAttr | CanAsValue | CanUnroll.

Inductive exception : Type :=
| ErrorReport (loc : SourceRange) (msg : list msg_item)
| NotSupported (loc : SourceRange) (kind : string) (what : Capability)
| cast_error                     (* [py::cast_error] *)
| error_already_set.             (* a Python exception, rethrown by pybind11 *)

Inductive result (A : Type) : Type :=
| Return (a : A)
| Throw (e : exception).
Arguments Return {A} a.
Arguments Throw {A} e.

(** A member function working on the [Method] under construction. *)
Definition M (A : Type) : Type := Method -> result A * Method.

Definition ret {A} (a : A) : M A := fun m => (Return a, m).
Definition throw {A} (e : exception) : M A := fun m => (Throw e, m).
Definition bind {A B} (c : M A) (k : A -> M B) : M B :=
  fun m =>
    match c m with
    | (Return a, m') => k a m'
    | (Throw e, m') => (Throw e, m')
    end.

Notation "x <- c ;; k" := (bind c (fun x => k))
  (at level 61, c at next level, right associativity).
Notation "c ;;; k" := (bind c (fun _ => k))
  (at level 61, right associativity).

(** [ensureSizeMatches], init.cpp:18. *)
Definition ensureSizeMatches (loc : SourceRange) (expected actual : nat)
    (what : string) : M unit :=
  if negb (expected =? actual) then
    throw (ErrorReport loc [Text "expected "; Count expected; Text " ";
                            Text what; Text " but found "; Count actual])
  else ret tt.

(** [typeString], init.cpp:24. *)
Definition typeString (h : Py.object) : string := Py.type_name h.

(** *** Graph and method operations *)

(** [n] new values numbered from [from]. *)
Fixpoint fresh_values (n from : nat) : list Value :=
  match n with
  | 0 => []
  | S n' => {| unique := from |} :: fresh_values n' (S from)
  end.

(** Modelled from the spec: the graph-building members of ir.h, which is
    missing: a node of the given kind is inserted at the end of the graph of
    the method under construction, at the given source location, with the
    given inputs and [n_outputs] newly created outputs, returned in order. *)
Definition emit_node (k : NodeKind) (loc : option SourceRange)
    (inputs : list Value) (n_outputs : nat) : M (list Value) :=
  fun m =>
    let g := graph m in
    let outputs := fresh_values n_outputs (next_unique g) in
    let new_node := {| kind_of := k; source_location := loc;
                       node_inputs := inputs; node_outputs := outputs |} in
    (Return outputs,
     {| method_name := method_name m;
        graph := {| graph_inputs := graph_inputs g;
                    graph_nodes := graph_nodes g ++ [new_node];
                    graph_outputs := graph_outputs g;
                    next_unique := next_unique g + n_outputs |};
        member_inputs := member_inputs m |}).

(** Modelled from the spec: [Method::num_inputs] of module.h, which is
    missing: the declared input count, the graph inputs that are not
    captured parameters. *)
Definition num_inputs (me : Method) : nat :=
  List.length (graph_inputs (graph me)) - List.length (member_inputs me).

Fixpoint find_slot (s : Slot) (l : list (Slot * Value)) : option Value :=
  match l with
  | [] => None
  | (s', v) :: rest => if s' =? s then Some v else find_slot s rest
  end.

(** Modelled from the spec: [Method::get_or_add_parameter] of module.h,
    which is missing: the graph input that stands for the slot, registered
    as a new graph input when the method has none yet. *)
Definition get_or_add_parameter (s : Slot) : M Value :=
  fun m =>
    match find_slot s (member_inputs m) with
    | Some v => (Return v, m)
    | None =>
        let g := graph m in
        let v := {| unique := next_unique g |} in
        (Return v,
         {| method_name := method_name m;
            graph := {| graph_inputs := graph_inputs g ++ [v];
                        graph_nodes := graph_nodes g;
                        graph_outputs := graph_outputs g;
                        next_unique := S (next_unique g) |};
            member_inputs := member_inputs m ++ [(s, v)] |})
    end.

Fixpoint get_or_add_parameters (slots : list Slot) : M (list Value) :=
  match slots with
  | [] => ret []
  | s :: rest =>
      v <- get_or_add_parameter s;;
      vs <- get_or_add_parameters rest;;
      ret (v :: vs)
  end.

(** Modelled from the spec: [Method::emit_call_to] of module.h, which is
    missing: emits an inlined call from the method under construction to
    the callee with the given inputs, and gives back its outputs.  The
    callee's captured parameters become parameters of the caller; the
    inlined body is kept as one node with one output per callee output. *)
Definition emit_call_to (callee : Method) (inputs : list Value)
  : M (list Value) :=
  members <- get_or_add_parameters (map fst (member_inputs callee));;
  emit_node (InlinedCall (method_name callee)) None (inputs ++ members)
            (List.length (graph_outputs (graph callee))).

(** ** The SugaredValue variants *)

(** A keyword argument of a call, [List<Attribute>]. *)
Record Attribute : Type := { attr_name : string; attr_value : Z }.

Inductive SugaredValue : Type :=
| SimpleValue (value : Value)                 (* compiler.h *)
| BuiltinFunction (name : string)             (* compiler.h *)
| PythonValue (self : Py.object)
| ConstantPythonValue (self : Py.object)
| MethodValue (module : Module) (method : Method)
| ModuleValue (module : Module).

(** [kind()], init.cpp:65, 150, 173; the first two variants are declared
    in compiler.h, which is missing, and their strings only name them in a
    [NotSupported] failure. *)
Definition kind (v : SugaredValue) : string :=
  match v with
  | SimpleValue _ => "value"
  | BuiltinFunction _ => "builtin"
  | PythonValue self | ConstantPythonValue self =>
      String.append "python value of type '"
                    (String.append (typeString self) "'")
  | MethodValue _ _ => "method"
  | ModuleValue _ => "module"
  end.

(** Modelled from the spec: the members of the base class [SugaredValue]
    of compiler.h, which is missing: each fails, the variant lacking the
    capability. *)
Definition SugaredValue_default {A} (what : Capability) (k : string)
    (loc : SourceRange) : M A :=
  throw (NotSupported loc k what).

(** *** PythonValue, init.cpp:28 *)

Definition cconv_of (n : nat) : string :=
  string_of_list_ascii (repeat "t"%char n).

(** [PythonValue::call], init.cpp:33. *)
Definition PythonValue_call (self : Py.object) (loc : SourceRange)
    (inputs : list Value) (attributes : list Attribute) (n_outputs : nat)
  : M (list Value) :=
  if 0 <? List.length attributes then
    throw (ErrorReport loc
             [Text "keyword arguments in Python calls aren't supported"])
  else
    emit_node (PythonOp self (cconv_of (List.length inputs))) (Some loc)
              inputs n_outputs.

(** [PythonValue::isBuiltinModule], init.cpp:72. *)
Definition isBuiltinModule (self : Py.object) : bool :=
  Py.is_imported self "torch" || Py.is_imported self "torch.nn.functional".

(** [PythonValue::getattr], init.cpp:80. *)
Definition PythonValue_getattr (self : Py.object) (loc : SourceRange)
    (name : string) : M Py.object :=
  match Py.GetAttrString self name with
  | Some r => ret r
  | None => throw (ErrorReport loc [Text "object has no attribute "; Text name])
  end.

(** [PythonValue::attr], init.cpp:51. *)
Definition PythonValue_attr (self : Py.object) (loc : SourceRange)
    (field : string) : M SugaredValue :=
  member <- PythonValue_getattr self loc field;;
  if isBuiltinModule self && Py.isinstance_function member then
    ret (BuiltinFunction field)
  else if Py.isinstance_module self && Py.isinstance_module member then
    ret (PythonValue member)
  else
    throw (ErrorReport loc [Text "unsupported attribute lookup on ";
                            Repr self; Text "."]).

(** *** ConstantPythonValue, init.cpp:96 *)

(** [ConstantPythonValue::createConstant], init.cpp:120. *)
Definition createConstant (loc : SourceRange) (val : Tensor) : M Value :=
  outs <- emit_node (Constant val) (Some loc) [] 1;;
  match outs with
  | v :: _ => ret v
  | [] => ret {| unique := 0 |}
  end.

(** A pybind11 cast that throws [py::cast_error] when it fails. *)
Definition py_cast_or_throw {A} (r : option A) : M A :=
  match r with
  | Some a => ret a
  | None => throw cast_error
  end.

(** [ConstantPythonValue::asValue], init.cpp:98. *)
Definition ConstantPythonValue_asValue (self : Py.object) (loc : SourceRange)
  : M Value :=
  if Py.isinstance_int self then
    z <- py_cast_or_throw (Py.cast_int32 self);;
    createConstant loc (scalarTensor kInt (Scalar_of_int32 z))
  else if Py.isinstance_float self then
    d <- py_cast_or_throw (Py.cast_float self);;
    createConstant loc (scalarTensor kFloat (Scalar_of_float d))
  else if Py.isinstance_bool self then
    b <- py_cast_or_throw (Py.cast_bool self);;
    createConstant loc (scalarTensor kByte (Scalar_of_bool b))
  else
    SugaredValue_default CanAsValue (kind (ConstantPythonValue self)) loc.

(** [ConstantPythonValue::unrolledFor], init.cpp:108. *)
Definition ConstantPythonValue_unrolledFor (self : Py.object)
    (loc : SourceRange) : M (list SugaredValue) :=
  if negb (Py.isinstance_tuple self) then
    SugaredValue_default CanUnroll (kind (ConstantPythonValue self)) loc
  else
    let tup := Py.tuple_items self in
    ret (map ConstantPythonValue tup).

(** *** MethodValue, init.cpp:146 *)

(** [MethodValue::call], init.cpp:153. *)
Definition MethodValue_call (method : Method) (loc : SourceRange)
    (inputs : list Value) (attributes : list Attribute) (n_outputs : nat)
  : M (list Value) :=
  if negb (List.length attributes =? 0) then
    throw (ErrorReport loc
             [Text "not yet implemented - calls to python functions using keyword arguments"])
  else
    ensureSizeMatches loc (num_inputs method) (List.length inputs) "inputs";;;
    outputs <- emit_call_to method inputs;;
    ensureSizeMatches loc (List.length outputs) n_outputs "outputs";;;
    ret outputs.

(** Modelled from the spec: [BuiltinFunction::call] of compiler.h, which is
    missing: the same call semantics as an external value, on a node that
    names the builtin. *)
Definition BuiltinFunction_call (name : string) (loc : SourceRange)
    (inputs : list Value) (attributes : list Attribute) (n_outputs : nat)
  : M (list Value) :=
  if 0 <? List.length attributes then
    throw (ErrorReport loc
             [Text "keyword arguments in Python calls aren't supported"])
  else
    emit_node (Builtin name) (Some loc) inputs n_outputs.

(** *** ModuleValue, init.cpp:169 *)

(** Nesting depth of a module; a submodule is less deep than its owner. *)
Fixpoint Module_height (m : Module) : nat :=
  match m with
  | Build_Module ms _ _ =>
      S ((fix heights (l : list (string * Module)) : nat :=
            match l with
            | [] => 0
            | (_, sub) :: rest => Nat.max (Module_height sub) (heights rest)
            end) ms)
  end.

Definition SugaredValue_height (v : SugaredValue) : nat :=
  match v with
  | ModuleValue m => Module_height m
  | _ => 0
  end.

Section Host.

(** [py::cast(module)]: the Python object pybind11 keeps for a [Module]. *)
Variable py_cast : Module -> Py.object.

(** [py_module.attr(set_name).contains(field)]; a missing attribute or one
    without [__contains__] raises in Python. *)
Definition attr_contains (py_module : Py.object) (set_name field : string)
  : M bool :=
  match Py.GetAttrString py_module set_name with
  | None => throw error_already_set
  | Some s =>
      match Py.contains s field with
      | Some b => ret b
      | None => throw error_already_set
      end
  end.

(** [ModuleValue::attr], init.cpp:178. *)
Definition ModuleValue_attr (this : Module) (loc : SourceRange)
    (field : string) : M SugaredValue :=
  match find_module this field with
  | Some v => ret (ModuleValue (module v))
  | None =>
  match find_method this field with
  | Some v => ret (MethodValue this v)
  | None =>
  match find_parameter this field with
  | Some v =>
      input <- get_or_add_parameter (slot v);;
      ret (SimpleValue input)
  | None =>
      (* This can also be a call to a non-script module, or a plain
         python method. If so return this as a python value. *)
      let py_module := py_cast this in
      match Py.getattr_default py_module field Py.None_ with
      | Some attr =>             (* the handle is not the null pointer *)
          if Py.isinstance_function attr || Py.isinstance_nn_Module attr then
            ret (PythonValue attr)
          else
            is_constant <- attr_contains py_module "_constants_set" field;;
            if (is_constant : bool) then
              ret (ConstantPythonValue attr)
            else
              throw (ErrorReport loc
                       [Text "attribute '"; Text field; Text "' of type '";
                        Text (typeString attr);
                        Text "' is not usable in a script method (did you forget to add it __constants__?)"])
      | None =>
          throw (ErrorReport loc
                   [Text "module has no attribute '"; Text field; Text "'"])
      end
  end
  end
  end.

(** [attr], by variant. *)
Definition attr (v : SugaredValue) (loc : SourceRange) (field : string)
  : M SugaredValue :=
  match v with
  | PythonValue self | ConstantPythonValue self =>
      PythonValue_attr self loc field
  | ModuleValue this => ModuleValue_attr this loc field
  | SimpleValue _ | BuiltinFunction _ | MethodValue _ _ =>
      SugaredValue_default CanAttr (kind v) loc
  end.

(** [asValue], by variant.  Modelled from the spec: [SimpleValue] is
    declared in compiler.h, which is missing; a graph-native value is its
    own graph value. *)
Definition asValue (v : SugaredValue) (loc : SourceRange) : M Value :=
  match v with
  | SimpleValue value => ret value
  | ConstantPythonValue self => ConstantPythonValue_asValue self loc
  | BuiltinFunction _ | PythonValue _ | MethodValue _ _ | ModuleValue _ =>
      SugaredValue_default CanAsValue (kind v) loc
  end.

(** [call], by variant; [ModuleValue::call], init.cpp:202, is
    [attr(loc, caller, "forward")->call(loc, caller, inputs, attributes,
    n_outputs)].  The value [attr] gives back is a submodule of the module
    or no module at all, so the calls end. *)
Equations? call (v : SugaredValue) (loc : SourceRange) (inputs : list Value)
    (attributes : list Attribute) (n_outputs : nat) (m : Method)
  : result (list Value) * Method by wf (SugaredValue_height v) lt :=
  call (SimpleValue value) loc inputs attributes n_outputs m :=
    SugaredValue_default CanCall (kind (SimpleValue value)) loc m;
  call (BuiltinFunction name) loc inputs attributes n_outputs m :=
    BuiltinFunction_call name loc inputs attributes n_outputs m;
  call (PythonValue self) loc inputs attributes n_outputs m :=
    PythonValue_call self loc inputs attributes n_outputs m;
  call (ConstantPythonValue self) loc inputs attributes n_outputs m :=
    PythonValue_call self loc inputs attributes n_outputs m;
  call (MethodValue _ method) loc inputs attributes n_outputs m :=
    MethodValue_call method loc inputs attributes n_outputs m;
  call (ModuleValue this) loc inputs attributes n_outputs m
    with inspect (ModuleValue_attr this loc "forward" m) := {
    | exist _ (Return forward, m') _ =>
        call forward loc inputs attributes n_outputs m';
    | exist _ (Throw e, m') _ => (Throw e, m') }.
Proof.
  assert (Hsub : forall ms ps mes nm,
             find_module (Build_Module ms ps mes) "forward" = Some nm ->
             Module_height (module nm) < Module_height (Build_Module ms ps mes)).
  { intros ms ps mes nm. unfold find_module. simpl.
    induction ms as [|[k sub] rest IH]; simpl; [discriminate|].
    destruct (String.eqb k "forward").
    - intros Hfind. inversion Hfind; subst; simpl. lia.
    - intros Hfind. specialize (IH Hfind). lia. }
  assert (Hpos : 0 < Module_height this) by (destruct this; simpl; lia).
  unfold ModuleValue_attr in e.
  destruct (find_module this "forward") as [nm|] eqn:Hfind.
  - inversion e; subst. destruct this as [ms ps mes].
    exact (Hsub _ _ _ _ Hfind).
  - destruct (find_method this "forward").
    { inversion e; subst; exact Hpos. }
    destruct (find_parameter this "forward").
    { unfold bind, get_or_add_parameter in e.
      destruct (find_slot _ _); inversion e; subst; exact Hpos. }
    destruct (Py.getattr_default _ _ _); [|discriminate].
    destruct (_ || _); [inversion e; subst; exact Hpos|].
    unfold bind, attr_contains in e.
    destruct (Py.GetAttrString _ _); [|discriminate].
    destruct (Py.contains _ _) as [[|]|]; inversion e; subst; exact Hpos.
Defined.

End Host.

(** ** The bindings of [ScriptModule], init.cpp:323 and 329 *)

Definition _has_parameter (self : Module) (name : string) : bool :=
  match find_parameter self name with
  | Some r => negb (is_buffer r)
  | None => false
  end.

Definition _has_buffer (self : Module) (name : string) : bool :=
  match find_parameter self name with
  | Some r => is_buffer r
  | None => false
  end.

(** ** The other members and bindings of init.cpp *)

(** [obj.is(py::none())]: identity with the None singleton. *)
Definition is_none (obj : Py.object) : bool :=
  match obj with
  | Py.None_ => true
  | _ => false
  end.

(** [pythonResolver], init.cpp:127.  The callback runs Python code: [None]
    stands for a Python exception it raises, which pybind11 rethrows.  A
    null [shared_ptr] is [None] of the option. *)
Definition pythonResolver (rcb : string -> option Py.object) (name : string)
  : result (option SugaredValue) :=
  match rcb name with
  | None => Throw error_already_set
  | Some obj =>
      if is_none obj then Return None
      else Return (Some (PythonValue obj))
  end.

(** What [ModuleValue::unrolledFor] meets when it iterates the Python
    object of a module: a script module, for which
    [py::isinstance<Module>] holds and [py::cast] gives the [Module], or
    any other object. *)
Inductive list_item : Type :=
| ScriptModule_item (r : Module)
| Object_item (obj : Py.object).

Section HostIteration.

Variable py_cast : Module -> Py.object.

(** [py::isinstance(o, py::module::import("torch.jit").attr("_ConstModuleList"))]. *)
Variable isinstance_ConstModuleList : Py.object -> bool.

(** The elements Python's iteration protocol gives for an object, in
    order; [None] when the iteration raises. *)
Variable iterate : Py.object -> option (list list_item).

(** [ModuleValue::unrolledFor], init.cpp:206. *)
Definition ModuleValue_unrolledFor (this : Module) (loc : SourceRange)
  : M (list SugaredValue) :=
  let py_module := py_cast this in
  if negb (isinstance_ConstModuleList py_module) then
    SugaredValue_default CanUnroll (kind (ModuleValue this)) loc
  else
    match iterate py_module with
    | None => throw error_already_set
    | Some items =>
        ret (map (fun item =>
                    match item with
                    | ScriptModule_item r => ModuleValue r
                    | Object_item obj => ConstantPythonValue obj
                    end) items)
    end.

End HostIteration.






(** [gatherParametersAndBuffers], init.cpp:259: the slots of the
    parameters of [m], then those of each submodule in turn, pushed at the
    back of [values]. *)
Fixpoint gatherParametersAndBuffers (values : list Slot) (m : Module)
  : list Slot :=
  match m with
  | Build_Module subs params _ =>
      (fix gather_modules (values : list Slot) (l : list (string * Module))
         : list Slot :=
         match l with
         | [] => values
         | (_, sub) :: rest =>
             gather_modules (gatherParametersAndBuffers values sub) rest
         end) (values ++ map slot params) subs
  end.

(** [_get_modules], init.cpp:300: the pairs of name and module. *)
Definition _get_modules (self : Module) : list (string * Module) :=
  map (fun nm => (name nm, module nm)) (get_modules self).

(** [_has_module], init.cpp:335. *)
Definition _has_module (self : Module) (name : string) : bool :=
  match find_module self name with
  | Some _ => true
  | None => false
  end.

(** [_has_method], init.cpp:338. *)
Definition _has_method (self : Module) (name : string) : bool :=
  match find_method self name with
  | Some _ => true
  | None => false
  end.

(** [_method_names], init.cpp:341. *)
Definition _method_names (self : Module) : list string :=
  map method_name (get_methods self).

(** ** Inputs and reports the properties are stated on *)

Definition loc0 : SourceRange := {| range_start := 0; range_end := 0 |}.

Definition empty_graph : Graph :=
  {| graph_inputs := []; graph_nodes := []; graph_outputs := [];
     next_unique := 0 |}.

(** A method under construction that has emitted nothing yet. *)
Definition fresh_method : Method :=
  {| method_name := "forward"; graph := empty_graph; member_inputs := [] |}.

(** A module with one parameter and one buffer. *)
Definition batch_norm : Module :=
  Build_Module []
    [ {| param_name := "weight"; is_buffer := false; slot := 100 |};
      {| param_name := "running_mean"; is_buffer := true; slot := 101 |} ]
    [].

(** A module with a submodule "layer1", a method "forward" and a
    parameter "weight"; "scale" names both a method and a parameter. *)
Definition layer1 : Module := Build_Module [] [] [].

Definition forward_method : Method :=
  {| method_name := "forward";
     graph := {| graph_inputs := [ {| unique := 0 |}; {| unique := 1 |} ];
                 graph_nodes := [];
                 graph_outputs := [ {| unique := 0 |}; {| unique := 1 |} ];
                 next_unique := 2 |};
     member_inputs := [] |}.

Definition scale_method : Method :=
  {| method_name := "scale"; graph := empty_graph; member_inputs := [] |}.

Definition net : Module :=
  Build_Module [("layer1", layer1)]
    [ {| param_name := "weight"; is_buffer := false; slot := 100 |};
      {| param_name := "scale"; is_buffer := false; slot := 102 |} ]
    [forward_method; scale_method].

(** The Python object of a script module: its constants set and its
    other attributes. *)
Definition script_module_object (constants : list string)
    (attrs : list (string * Py.object)) : Py.object :=
  Py.Instance "ScriptModule" (("_constants_set", Py.StrSet constants) :: attrs).

(** A module whose Python object has a data attribute "hidden_size",
    with and without it in the constants set. *)
Definition plain_module : Module := Build_Module [] [] [].

Definition host_with_data (constants : list string) : Module -> Py.object :=
  fun _ => script_module_object constants [("hidden_size", Py.Int 128)].

(** The namespace torch, with a function, a constant and the namespace
    torch.nn.functional below torch.nn; and an object that is no
    namespace. *)
Definition torch_functional : Py.object :=
  Py.Namespace "torch.nn.functional" [("relu", Py.Callable "function" "relu")].

Definition torch_nn : Py.object :=
  Py.Namespace "torch.nn" [("functional", torch_functional)].

Definition torch : Py.object :=
  Py.Namespace "torch"
    [("add", Py.Callable "builtin_function_or_method" "add");
     ("nn", torch_nn);
     ("long", Py.Instance "dtype" [])].

Definition config_object : Py.object :=
  Py.Instance "Config" [("layers", Py.Int 3)].

Definition no_host : Module -> Py.object := fun _ => Py.None_.

(** The arity report of [ensureSizeMatches]. *)
Definition arity_error (loc : SourceRange) (expected : nat) (what : string)
    (actual : nat) : exception :=
  ErrorReport loc [Text "expected "; Count expected; Text " "; Text what;
                   Text " but found "; Count actual].

(** The two reports on keyword arguments, init.cpp:35 and 155. *)
Definition keyword_arguments_error (loc : SourceRange) (e : exception) : Prop :=
  e = ErrorReport loc
        [Text "keyword arguments in Python calls aren't supported"]
  \/ e = ErrorReport loc
         [Text "not yet implemented - calls to python functions using keyword arguments"].

Definition three_inputs : list Value :=
  [ {| unique := 10 |}; {| unique := 11 |}; {| unique := 12 |} ].

Definition two_inputs : list Value :=
  [ {| unique := 10 |}; {| unique := 11 |} ].

Definition keyword_dim : Attribute := {| attr_name := "dim"; attr_value := 1 |}.

(** The variants whose [call] checks the keyword arguments first. *)
Definition rejects_keywords (v : SugaredValue) : bool :=
  match v with
  | BuiltinFunction _ | PythonValue _ | ConstantPythonValue _
  | MethodValue _ _ => true
  | SimpleValue _ | ModuleValue _ => false
  end.

(** A module whose Python object has a method "forward" written in
    Python, and one whose "forward" is a number. *)
Definition host_with_forward (forward : Py.object) : Module -> Py.object :=
  fun _ => script_module_object [] [("forward", forward)].

Definition python_forward : Py.object := Py.Callable "method" "forward".

(** A module whose entry point is the "forward" of its submodule
    "forward". *)
Definition wrapper : Module := Build_Module [("forward", net)] [] [].

(** The number of parameters and buffers of a module and of the modules
    below it, a shared submodule counting once per registration. *)
Fixpoint count_parameters (m : Module) : nat :=
  match m with
  | Build_Module subs params _ =>
      List.length params +
      (fix count_modules (l : list (string * Module)) : nat :=
         match l with
         | [] => 0
         | (_, sub) :: rest => count_parameters sub + count_modules rest
         end) subs
  end.

(** A network of two layers, each with a weight and a buffer, and a
    parameter of its own. *)
Definition conv_layer (base : Slot) : Module :=
  Build_Module []
    [ {| param_name := "weight"; is_buffer := false; slot := base |};
      {| param_name := "running_var"; is_buffer := true; slot := S base |} ]
    [].

Definition two_layers : Module :=
  Build_Module [("conv1", conv_layer 10); ("conv2", conv_layer 20)]
    [ {| param_name := "bias"; is_buffer := false; slot := 1 |} ]
    [].

(** Converting each value of a list in turn, as the body of an unrolled
    loop does with its loop variable. *)
Fixpoint asValue_each (vs : list SugaredValue) (loc : SourceRange)
  : M (list Value) :=
  match vs with
  | [] => ret []
  | v :: rest =>
      x <- asValue v loc;;
      xs <- asValue_each rest loc;;
      ret (x :: xs)
  end.

(** The nodes of the integer constants [zs], numbered from [from]. *)
Fixpoint constant_nodes (loc : SourceRange) (zs : list Z) (from : nat)
  : list Node :=
  match zs with
  | [] => []
  | z :: rest =>
      {| kind_of := Constant (scalarTensor kInt (ScalarInt z));
         source_location := Some loc;
         node_inputs := [];
         node_outputs := [ {| unique := from |} ] |}
      :: constant_nodes loc rest (S from)
  end.

Definition int32_range (z : Z) : Prop :=
  (- 2147483648 <= z <= 2147483647)%Z.

(** A resolution callback that knows torch and a number, answers None for
    an unknown name and raises on the empty name. *)
Definition sample_rcb (name : string) : option Py.object :=
  if String.eqb name "" then None
  else if String.eqb name "torch" then Some torch
  else if String.eqb name "width" then Some (Py.Int 64)
  else Some Py.None_.

(** A constant module list: its Python object is tagged, and iterating
    it gives a script module and a number. *)
Definition const_list_object : Py.object := Py.Instance "_ConstModuleList" [].

Definition sample_isinstance_ConstModuleList (o : Py.object) : bool :=
  match o with
  | Py.Instance "_ConstModuleList" _ => true
  | _ => false
  end.

Definition sample_iterate (o : Py.object) : option (list list_item) :=
  match o with
  | Py.Instance "_ConstModuleList" _ =>
      Some [ScriptModule_item layer1; Object_item (Py.Int 3)]
  | _ => None
  end.

(** Two emissions of a constant differ when the tensors differ. *)
Ltac constant_mismatch H :=
  inversion H;
  match goal with
  | Hn : _ ++ [_] = _ ++ [_] |- _ =>
      apply app_inj_tail in Hn; destruct Hn as [_ Hn]; discriminate Hn
  end.

(** * Properties *)

(** ** Parameters and buffers: [_has_parameter], [_has_buffer] *)

Lemma find_parameter_some (self : Module) (field : string) (p : NamedParameter) :
  find_parameter self field = Some p ->
  In p (get_parameters self) /\ param_name p = field.
Proof.
  unfold find_parameter. intros H.
  apply find_some in H. destruct H as [Hin Heq].
  apply String.eqb_eq in Heq. split; assumption.
Qed.

Lemma find_unique_name (ps : list NamedParameter) (p : NamedParameter) :
  NoDup (map param_name ps) ->
  In p ps ->
  find (fun q => String.eqb (param_name q) (param_name p)) ps = Some p.
Proof.
  induction ps as [|q rest IH]; intros Hnd Hin; [contradiction|].
  simpl in *. inversion Hnd as [|x l Hnotin Hnd']; subst.
  destruct Hin as [->|Hin].
  - rewrite String.eqb_refl. reflexivity.
  - destruct (String.eqb (param_name q) (param_name p)) eqn:E.
    + apply String.eqb_eq in E. exfalso. apply Hnotin.
      rewrite E. apply in_map. exact Hin.
    + apply IH; assumption.
Qed.

Lemma find_parameter_registered (self : Module) (p : NamedParameter) :
  NoDup (map param_name (get_parameters self)) ->
  In p (get_parameters self) ->
  find_parameter self (param_name p) = Some p.
Proof. intros Hnd Hin. unfold find_parameter. apply find_unique_name; assumption. Qed.

(** C10.  When the parameter names of a module are unique,
    [_has_parameter name] is true exactly when a registered parameter named
    [name] has its is-buffer flag false, [_has_buffer name] exactly when one
    has it true; and for no module and name are both true. *)
Theorem has_parameter_has_buffer_partition (self : Module) (name : string) :
  NoDup (map param_name (get_parameters self)) ->
  (_has_parameter self name = true <->
     exists p, In p (get_parameters self) /\ param_name p = name /\
               is_buffer p = false)
  /\ (_has_buffer self name = true <->
     exists p, In p (get_parameters self) /\ param_name p = name /\
               is_buffer p = true)
  /\ (_has_parameter self name && _has_buffer self name = false).
Proof.
  intros Hnd. unfold _has_parameter, _has_buffer.
  repeat split.
  - destruct (find_parameter self name) as [r|] eqn:E; [|discriminate].
    intros H. apply find_parameter_some in E. destruct E as [Hin Hn].
    exists r. repeat split; try assumption.
    destruct (is_buffer r); [discriminate|reflexivity].
  - intros [p [Hin [Hn Hb]]]. subst name.
    rewrite (find_parameter_registered self p Hnd Hin), Hb. reflexivity.
  - destruct (find_parameter self name) as [r|] eqn:E; [|discriminate].
    intros H. apply find_parameter_some in E. destruct E as [Hin Hn].
    exists r. repeat split; assumption.
  - intros [p [Hin [Hn Hb]]]. subst name.
    rewrite (find_parameter_registered self p Hnd Hin). exact Hb.
  - destruct (find_parameter self name) as [r|]; [|reflexivity].
    destruct (is_buffer r); reflexivity.
Qed.

Lemma has_parameter_has_buffer_partition_witness :
  _has_parameter batch_norm "running_mean" = false
  /\ _has_buffer batch_norm "running_mean" = true
  /\ (_has_buffer batch_norm "weight" = true <->
      exists p, In p (get_parameters batch_norm) /\ param_name p = "weight" /\
                is_buffer p = true).
Proof.
  assert (Hnd : NoDup (map param_name (get_parameters batch_norm))).
  { simpl. repeat constructor; simpl; intuition discriminate. }
  split; [reflexivity|]. split; [reflexivity|].
  exact (proj1 (proj2 (has_parameter_has_buffer_partition batch_norm "weight" Hnd))).
Defined.

(** ** Constant values: [asValue], [unrolledFor] *)

Lemma createConstant_emits (loc : SourceRange) (val : Tensor) (m : Method) :
  createConstant loc val m =
  (Return {| unique := next_unique (graph m) |},
   {| method_name := method_name m;
      graph :=
        {| graph_inputs := graph_inputs (graph m);
           graph_nodes :=
             graph_nodes (graph m) ++
             [ {| kind_of := Constant val; source_location := Some loc;
                  node_inputs := [];
                  node_outputs := [ {| unique := next_unique (graph m) |} ] |} ];
           graph_outputs := graph_outputs (graph m);
           next_unique := next_unique (graph m) + 1 |};
      member_inputs := member_inputs m |}).
Proof. reflexivity. Qed.

(** A host integer that fits 32 bits becomes a zero-dimensional [kInt]
    constant holding it. *)
Lemma asValue_int (z : Z) (loc : SourceRange) (m : Method) :
  (- 2147483648 <= z <= 2147483647)%Z ->
  asValue (ConstantPythonValue (Py.Int z)) loc m =
  createConstant loc (scalarTensor kInt (ScalarInt z)) m.
Proof.
  intros [Hlo Hhi]. simpl. unfold ConstantPythonValue_asValue. simpl.
  apply Z.leb_le in Hlo. apply Z.leb_le in Hhi.
  unfold bind, py_cast_or_throw. rewrite Hlo, Hhi. reflexivity.
Qed.

(** A host integer that does not fit 32 bits makes [py::cast<int32_t>]
    throw; nothing is emitted. *)
Lemma asValue_int_out_of_range (z : Z) (loc : SourceRange) (m : Method) :
  (z < - 2147483648 \/ 2147483647 < z)%Z ->
  asValue (ConstantPythonValue (Py.Int z)) loc m = (Throw cast_error, m).
Proof.
  intros H. simpl. unfold ConstantPythonValue_asValue. simpl.
  unfold bind, py_cast_or_throw.
  destruct ((-2147483648 <=? z)%Z && (z <=? 2147483647)%Z) eqn:E; [|reflexivity].
  apply andb_true_iff in E. destruct E as [E1 E2].
  apply Z.leb_le in E1. apply Z.leb_le in E2. lia.
Qed.

(** A host float becomes a zero-dimensional [kFloat] constant. *)
Lemma asValue_float (d : float) (loc : SourceRange) (m : Method) :
  asValue (ConstantPythonValue (Py.Float d)) loc m =
  createConstant loc (scalarTensor kFloat (ScalarFloat d)) m.
Proof. reflexivity. Qed.

(** An object that is neither int (bool included) nor float has no graph
    value: the member of the base class fails. *)
Lemma asValue_other (self : Py.object) (loc : SourceRange) (m : Method) :
  Py.isinstance_int self = false ->
  Py.isinstance_float self = false ->
  asValue (ConstantPythonValue self) loc m =
  (Throw (NotSupported loc (kind (ConstantPythonValue self)) CanAsValue), m).
Proof.
  intros Hi Hf. simpl. unfold ConstantPythonValue_asValue.
  rewrite Hi, Hf.
  destruct self; simpl in *; try discriminate; reflexivity.
Qed.

(** C6.  A constant value wrapping a host boolean is converted by the
    integer branch of [asValue]: the graph constant has element kind
    [kInt] and holds 1 or 0, not a [kByte] constant; the [kByte] branch is
    never taken. *)
Theorem asValue_bool_takes_int_branch (b : bool) (loc : SourceRange)
    (m : Method) :
  asValue (ConstantPythonValue (Py.Bool b)) loc m =
    createConstant loc (scalarTensor kInt (ScalarInt (if b then 1 else 0))) m
  /\ asValue (ConstantPythonValue (Py.Bool b)) loc m <>
    createConstant loc (scalarTensor kByte (Scalar_of_bool b)) m.
Proof.
  split.
  - destruct b; reflexivity.
  - destruct b; simpl; unfold ConstantPythonValue_asValue; simpl;
      unfold bind, py_cast_or_throw; rewrite !createConstant_emits;
      intros H; constant_mismatch H.
Qed.

(** No wrapped object reaches the [kByte] branch: whatever [asValue]
    emits, it is not a [kByte] constant. *)
Lemma asValue_never_kByte (self : Py.object) (loc : SourceRange)
    (m : Method) (s : Scalar) :
  asValue (ConstantPythonValue self) loc m <>
  createConstant loc (scalarTensor kByte s) m.
Proof.
  unfold asValue, ConstantPythonValue_asValue.
  destruct self; simpl; try (intros H; discriminate H).
  - intros H. constant_mismatch H.
  - unfold bind, py_cast_or_throw, ret.
    destruct ((-2147483648 <=? z)%Z && (z <=? 2147483647)%Z);
      simpl; intros H; [constant_mismatch H | discriminate H].
  - intros H. constant_mismatch H.
Qed.

(** C7.  [unrolledFor] on a constant value wrapping a tuple of n elements
    changes nothing in the graph and returns n constant values, the i-th
    wrapping the i-th element; on any other object it fails with the
    not-iterable failure of the base class.  On (1, 2, 3) the three values
    convert, in that order, to the integer constants 1, 2 and 3. *)
Theorem unrolledFor_constant_tuple (self : Py.object) (loc : SourceRange)
    (m : Method) :
  match self with
  | Py.Tuple elts =>
      ConstantPythonValue_unrolledFor self loc m =
        (Return (map ConstantPythonValue elts), m)
      /\ List.length (map ConstantPythonValue elts) = List.length elts
      /\ (forall i, nth_error (map ConstantPythonValue elts) i =
                    option_map ConstantPythonValue (nth_error elts i))
  | _ =>
      ConstantPythonValue_unrolledFor self loc m =
        (Throw (NotSupported loc (kind (ConstantPythonValue self)) CanUnroll), m)
  end
  /\ exists v1 v2 v3,
      ConstantPythonValue_unrolledFor
        (Py.Tuple [Py.Int 1; Py.Int 2; Py.Int 3]) loc m =
        (Return [v1; v2; v3], m)
      /\ (forall m', asValue v1 loc m' =
                     createConstant loc (scalarTensor kInt (ScalarInt 1)) m')
      /\ (forall m', asValue v2 loc m' =
                     createConstant loc (scalarTensor kInt (ScalarInt 2)) m')
      /\ (forall m', asValue v3 loc m' =
                     createConstant loc (scalarTensor kInt (ScalarInt 3)) m').
Proof.
  split.
  - destruct self; try reflexivity.
    split; [reflexivity|]. split.
    + apply length_map.
    + intros i. apply nth_error_map.
  - exists (ConstantPythonValue (Py.Int 1)), (ConstantPythonValue (Py.Int 2)),
      (ConstantPythonValue (Py.Int 3)).
    repeat split.
Qed.

(** ** Calling a module *)

(** Unfolding of [call] on a module value. *)
Lemma call_ModuleValue (py_cast : Module -> Py.object)
    (this : Module) (loc : SourceRange) (inputs : list Value)
    (attributes : list Attribute) (n_outputs : nat) (m : Method) :
  call py_cast (ModuleValue this) loc inputs attributes n_outputs m =
  match ModuleValue_attr py_cast this loc "forward" m with
  | (Return forward, m') =>
      call py_cast forward loc inputs attributes n_outputs m'
  | (Throw e, m') => (Throw e, m')
  end.
Proof.
  simp call.
  destruct (inspect (ModuleValue_attr py_cast this loc "forward" m))
    as [[[forward|e] m'] Heq]; simpl; rewrite Heq; reflexivity.
Qed.

(** C9.  Calling a module value is resolving [attr "forward"] on it and
    calling the result with the same inputs, keyword arguments and output
    count: same outputs and same method under construction afterwards, or
    the same exception. *)
Theorem ModuleValue_call_is_forward_call (py_cast : Module -> Py.object)
    (this : Module) (loc : SourceRange) (inputs : list Value)
    (attributes : list Attribute) (n_outputs : nat) (m : Method) :
  call py_cast (ModuleValue this) loc inputs attributes n_outputs m =
  (forward <- attr py_cast (ModuleValue this) loc "forward";;
   call py_cast forward loc inputs attributes n_outputs) m.
Proof.
  rewrite call_ModuleValue. unfold bind, attr.
  destruct (ModuleValue_attr py_cast this loc "forward" m) as [[forward|e] m'];
    reflexivity.
Qed.

(** Calling [net] inlines its method "forward"; calling [wrapper]
    goes through the submodule "forward" to the same method. *)
Example call_net_forward :
  call no_host (ModuleValue net) loc0 two_inputs [] 2 fresh_method =
    (Return [ {| unique := 0 |}; {| unique := 1 |} ],
     {| method_name := "forward";
        graph :=
          {| graph_inputs := [];
             graph_nodes :=
               [ {| kind_of := InlinedCall "forward";
                    source_location := None;
                    node_inputs := two_inputs;
                    node_outputs := [ {| unique := 0 |}; {| unique := 1 |} ] |} ];
             graph_outputs := [];
             next_unique := 2 |};
        member_inputs := [] |})
  /\ call no_host (ModuleValue wrapper) loc0 two_inputs [] 2 fresh_method =
     call no_host (ModuleValue net) loc0 two_inputs [] 2 fresh_method.
Proof. split; reflexivity. Qed.

(** ** Attribute lookup on a module *)

Lemma find_slot_app_new (s : Slot) (v : Value) (l : list (Slot * Value)) :
  find_slot s l = None -> find_slot s (l ++ [(s, v)]) = Some v.
Proof.
  induction l as [|[s' v'] rest IH]; simpl.
  - intros _. rewrite Nat.eqb_refl. reflexivity.
  - destruct (s' =? s); [discriminate|exact IH].
Qed.

(** What [get_or_add_parameter] leaves behind: the slot is a captured
    parameter of the method, standing for the returned value, which is a
    new graph input when the slot was not yet captured. *)
Lemma get_or_add_parameter_registers (s : Slot) (m : Method) :
  exists input m',
    get_or_add_parameter s m = (Return input, m')
    /\ find_slot s (member_inputs m') = Some input
    /\ (find_slot s (member_inputs m) = None ->
        graph_inputs (graph m') = graph_inputs (graph m) ++ [input])
    /\ (find_slot s (member_inputs m) <> None -> m' = m).
Proof.
  unfold get_or_add_parameter.
  destruct (find_slot s (member_inputs m)) as [v|] eqn:E.
  - exists v, m. repeat split; try assumption. intros H; discriminate H.
  - eexists; eexists. split; [reflexivity|]. simpl. repeat split.
    + apply find_slot_app_new. exact E.
    + intros H. contradiction.
Qed.

(** C1.  [attr] on a module value resolves the field in a fixed order.
    A submodule of that name gives a module value wrapping it; failing
    that, a method of that name gives a method value pairing the module
    with it; failing that, a parameter of that name is registered as a
    graph input of the method under construction and a simple value
    wrapping that input is returned.  In these three cases the result is
    the same whatever the Python object of the module is. *)
Theorem ModuleValue_attr_precedence (this : Module) (loc : SourceRange)
    (field : string) (m : Method) :
  (forall v, find_module this field = Some v ->
     forall py_cast,
       attr py_cast (ModuleValue this) loc field m =
       (Return (ModuleValue (module v)), m))
  /\ (forall v, find_module this field = None ->
       find_method this field = Some v ->
       forall py_cast,
         attr py_cast (ModuleValue this) loc field m =
         (Return (MethodValue this v), m))
  /\ (forall v, find_module this field = None ->
       find_method this field = None ->
       find_parameter this field = Some v ->
       forall py_cast, exists input m',
         get_or_add_parameter (slot v) m = (Return input, m')
         /\ attr py_cast (ModuleValue this) loc field m =
            (Return (SimpleValue input), m')
         /\ find_slot (slot v) (member_inputs m') = Some input
         /\ (find_slot (slot v) (member_inputs m) = None ->
             graph_inputs (graph m') = graph_inputs (graph m) ++ [input]))
  /\ (forall py_cast py_cast',
       find_module this field <> None \/ find_method this field <> None \/
       find_parameter this field <> None ->
       attr py_cast (ModuleValue this) loc field m =
       attr py_cast' (ModuleValue this) loc field m).
Proof.
  repeat split.
  - intros v Hmod py_cast. simpl. unfold ModuleValue_attr. rewrite Hmod.
    reflexivity.
  - intros v Hmod Hmeth py_cast. simpl. unfold ModuleValue_attr.
    rewrite Hmod, Hmeth. reflexivity.
  - intros v Hmod Hmeth Hpar py_cast. simpl. unfold ModuleValue_attr.
    rewrite Hmod, Hmeth, Hpar.
    destruct (get_or_add_parameter_registers (slot v) m)
      as [input [m' [Hget [Hslot [Hnew _]]]]].
    exists input, m'. unfold bind. rewrite Hget. repeat split; assumption.
  - intros py_cast py_cast' H. simpl. unfold ModuleValue_attr.
    destruct (find_module this field); [reflexivity|].
    destruct (find_method this field); [reflexivity|].
    destruct (find_parameter this field); [reflexivity|].
    destruct H as [H|[H|H]]; contradiction.
Qed.

Lemma ModuleValue_attr_precedence_witness :
  (forall py_cast,
     attr py_cast (ModuleValue net) loc0 "layer1" fresh_method =
     (Return (ModuleValue layer1), fresh_method))
  /\ (forall py_cast,
       attr py_cast (ModuleValue net) loc0 "scale" fresh_method =
       (Return (MethodValue net scale_method), fresh_method))
  /\ (forall py_cast py_cast',
       attr py_cast (ModuleValue net) loc0 "weight" fresh_method =
       attr py_cast' (ModuleValue net) loc0 "weight" fresh_method).
Proof.
  split; [|split].
  - exact (proj1 (ModuleValue_attr_precedence net loc0 "layer1" fresh_method)
             {| name := "layer1"; module := layer1 |} eq_refl).
  - exact (proj1 (proj2 (ModuleValue_attr_precedence net loc0 "scale"
                           fresh_method))
             scale_method eq_refl eq_refl).
  - intros py_cast py_cast'.
    apply (proj2 (proj2 (proj2 (ModuleValue_attr_precedence net loc0 "weight"
                                  fresh_method)))).
    right. right. simpl. discriminate.
Defined.

(** Resolving the parameter "weight" of [net] makes it the first graph
    input of a method that had none; resolving it again adds nothing. *)
Example attr_net_weight :
  exists m',
    attr no_host (ModuleValue net) loc0 "weight" fresh_method =
      (Return (SimpleValue {| unique := 0 |}), m')
    /\ graph_inputs (graph m') = [ {| unique := 0 |} ]
    /\ member_inputs m' = [(100, {| unique := 0 |})]
    /\ attr no_host (ModuleValue net) loc0 "weight" m' =
       (Return (SimpleValue {| unique := 0 |}), m').
Proof. eexists. repeat split. Qed.

(** When the three lookups fail, [attr] goes by the Python object of the
    module alone. *)
Lemma ModuleValue_attr_host (py_cast : Module -> Py.object) (this : Module)
    (loc : SourceRange) (field : string) (m : Method) :
  find_module this field = None ->
  find_method this field = None ->
  find_parameter this field = None ->
  ModuleValue_attr py_cast this loc field m =
  match Py.getattr_default (py_cast this) field Py.None_ with
  | Some a =>
      if Py.isinstance_function a || Py.isinstance_nn_Module a then
        (Return (PythonValue a), m)
      else
        (is_constant <- attr_contains (py_cast this) "_constants_set" field;;
         if (is_constant : bool) then ret (ConstantPythonValue a)
         else
           throw (ErrorReport loc
                    [Text "attribute '"; Text field; Text "' of type '";
                     Text (typeString a);
                     Text "' is not usable in a script method (did you forget to add it __constants__?)"])) m
  | None =>
      (Throw (ErrorReport loc
                [Text "module has no attribute '"; Text field; Text "'"]), m)
  end.
Proof.
  intros Hmod Hmeth Hpar. unfold ModuleValue_attr.
  rewrite Hmod, Hmeth, Hpar.
  destruct (Py.getattr_default (py_cast this) field Py.None_); [|reflexivity].
  destruct (Py.isinstance_function o || Py.isinstance_nn_Module o); reflexivity.
Qed.

(** The handle [py::getattr] gives back with a default is never null. *)
Lemma getattr_default_not_null (o : Py.object) (field : string)
    (default_ : Py.object) :
  Py.handle_bool (Py.getattr_default o field default_) = true.
Proof.
  unfold Py.getattr_default. destruct (Py.GetAttrString o field); reflexivity.
Qed.

(** C5.  When no submodule, method or parameter is named [field] and the
    Python object of the module has an attribute [field] that is neither
    callable nor an nn.Module, [attr] goes by the constants set of the
    module: a field in the set gives a constant value wrapping the
    attribute; a field outside it fails with the message that the
    attribute's type is not usable unless declared in __constants__.  The
    method under construction is left as it was. *)
Theorem ModuleValue_attr_data_attribute (py_cast : Module -> Py.object)
    (this : Module) (loc : SourceRange) (field : string) (m : Method)
    (a constants : Py.object) (listed : bool) :
  find_module this field = None ->
  find_method this field = None ->
  find_parameter this field = None ->
  Py.GetAttrString (py_cast this) field = Some a ->
  Py.isinstance_function a = false ->
  Py.isinstance_nn_Module a = false ->
  Py.GetAttrString (py_cast this) "_constants_set" = Some constants ->
  Py.contains constants field = Some listed ->
  attr py_cast (ModuleValue this) loc field m =
  if listed then (Return (ConstantPythonValue a), m)
  else
    (Throw (ErrorReport loc
              [Text "attribute '"; Text field; Text "' of type '";
               Text (typeString a);
               Text "' is not usable in a script method (did you forget to add it __constants__?)"]),
     m).
Proof.
  intros Hmod Hmeth Hpar Hattr Hfun Hnn Hset Hin. simpl.
  rewrite ModuleValue_attr_host by assumption.
  unfold Py.getattr_default. rewrite Hattr, Hfun, Hnn. simpl.
  unfold bind, attr_contains. rewrite Hset, Hin.
  destruct listed; reflexivity.
Qed.

Lemma ModuleValue_attr_data_attribute_witness :
  attr (host_with_data []) (ModuleValue plain_module) loc0 "hidden_size"
       fresh_method =
    (Throw (ErrorReport loc0
              [Text "attribute '"; Text "hidden_size"; Text "' of type '";
               Text "int";
               Text "' is not usable in a script method (did you forget to add it __constants__?)"]),
     fresh_method)
  /\ attr (host_with_data ["hidden_size"]) (ModuleValue plain_module) loc0
          "hidden_size" fresh_method =
    (Return (ConstantPythonValue (Py.Int 128)), fresh_method).
Proof.
  split.
  - exact (ModuleValue_attr_data_attribute (host_with_data []) plain_module
             loc0 "hidden_size" fresh_method (Py.Int 128) (Py.StrSet []) false
             eq_refl eq_refl eq_refl eq_refl eq_refl eq_refl eq_refl eq_refl).
  - exact (ModuleValue_attr_data_attribute (host_with_data ["hidden_size"])
             plain_module loc0 "hidden_size" fresh_method (Py.Int 128)
             (Py.StrSet ["hidden_size"]) true
             eq_refl eq_refl eq_refl eq_refl eq_refl eq_refl eq_refl eq_refl).
Defined.

(** The message of init.cpp:199 is never reported, whatever the module,
    its Python object and the field. *)
Lemma ModuleValue_attr_never_no_attribute (py_cast : Module -> Py.object)
    (this : Module) (loc : SourceRange) (field : string) (m : Method) :
  fst (ModuleValue_attr py_cast this loc field m) <>
  Throw (ErrorReport loc
           [Text "module has no attribute '"; Text field; Text "'"]).
Proof.
  unfold ModuleValue_attr.
  destruct (find_module this field); [discriminate|].
  destruct (find_method this field); [discriminate|].
  destruct (find_parameter this field).
  { unfold bind, get_or_add_parameter.
    destruct (find_slot _ _); discriminate. }
  unfold Py.getattr_default.
  destruct (Py.GetAttrString (py_cast this) field) as [a|].
  - destruct (_ || _); [discriminate|].
    unfold bind, attr_contains.
    destruct (Py.GetAttrString _ _); [|discriminate].
    destruct (Py.contains _ _) as [[|]|]; discriminate.
  - simpl. unfold bind, attr_contains.
    destruct (Py.GetAttrString _ _); [|discriminate].
    destruct (Py.contains _ _) as [[|]|]; discriminate.
Qed.

(** C2.  When no submodule, method or parameter is named [field] and the
    Python object of the module has no attribute [field] either, [attr]
    does not report "module has no attribute": the lookup with default
    gives a handle on None, which is not null, and [attr] goes on with None
    as the attribute.  With a constants set that does not list the field it
    reports that the attribute of type NoneType is not usable; with one
    that lists it, it returns a constant value wrapping None. *)
Theorem ModuleValue_attr_missing_attribute (py_cast : Module -> Py.object)
    (this : Module) (loc : SourceRange) (field : string) (m : Method)
    (constants : Py.object) (listed : bool) :
  find_module this field = None ->
  find_method this field = None ->
  find_parameter this field = None ->
  Py.GetAttrString (py_cast this) field = None ->
  Py.GetAttrString (py_cast this) "_constants_set" = Some constants ->
  Py.contains constants field = Some listed ->
  attr py_cast (ModuleValue this) loc field m =
    (if listed then (Return (ConstantPythonValue Py.None_), m)
     else
       (Throw (ErrorReport loc
                 [Text "attribute '"; Text field; Text "' of type '";
                  Text "NoneType";
                  Text "' is not usable in a script method (did you forget to add it __constants__?)"]),
        m))
  /\ fst (attr py_cast (ModuleValue this) loc field m) <>
     Throw (ErrorReport loc
              [Text "module has no attribute '"; Text field; Text "'"]).
Proof.
  intros Hmod Hmeth Hpar Hattr Hset Hin. split.
  - simpl. rewrite ModuleValue_attr_host by assumption.
    unfold Py.getattr_default. rewrite Hattr. simpl.
    unfold bind, attr_contains. rewrite Hset, Hin.
    destruct listed; reflexivity.
  - apply ModuleValue_attr_never_no_attribute.
Qed.

Lemma ModuleValue_attr_missing_attribute_witness :
  attr (host_with_data []) (ModuleValue plain_module) loc0 "dropout"
       fresh_method =
    (Throw (ErrorReport loc0
              [Text "attribute '"; Text "dropout"; Text "' of type '";
               Text "NoneType";
               Text "' is not usable in a script method (did you forget to add it __constants__?)"]),
     fresh_method)
  /\ fst (attr (host_with_data []) (ModuleValue plain_module) loc0 "dropout"
               fresh_method) <>
     Throw (ErrorReport loc0
              [Text "module has no attribute '"; Text "dropout"; Text "'"]).
Proof.
  exact (ModuleValue_attr_missing_attribute (host_with_data []) plain_module
           loc0 "dropout" fresh_method (Py.StrSet []) false
           eq_refl eq_refl eq_refl eq_refl eq_refl eq_refl).
Defined.

(** ** Attribute lookup on a Python value *)

(** [attr] on a Python value never touches the method under
    construction. *)
Lemma PythonValue_attr_state (self : Py.object) (loc : SourceRange)
    (field : string) (m : Method) :
  snd (PythonValue_attr self loc field m) = m.
Proof.
  unfold PythonValue_attr, bind, PythonValue_getattr.
  destruct (Py.GetAttrString self field) as [member|]; [|reflexivity].
  simpl. destruct (_ && _); [reflexivity|].
  destruct (_ && _); reflexivity.
Qed.

(** C8.  [attr] on a Python value.  When the wrapped object has no member
    named [field], it fails with "object has no attribute".  When it has
    one, and the object is not an allow-listed namespace with that member
    callable, nor a namespace with that member a namespace, it fails with
    "unsupported attribute lookup".  A builtin function is returned only
    for an allow-listed object and a callable member, a Python value only
    for a namespace and a namespace member, and nothing else is ever
    returned. *)
Theorem PythonValue_attr_resolution (py_cast : Module -> Py.object)
    (self : Py.object) (loc : SourceRange) (field : string) (m : Method) :
  (Py.GetAttrString self field = None ->
     attr py_cast (PythonValue self) loc field m =
     (Throw (ErrorReport loc [Text "object has no attribute "; Text field]), m))
  /\ (forall member,
        Py.GetAttrString self field = Some member ->
        isBuiltinModule self && Py.isinstance_function member = false ->
        Py.isinstance_module self && Py.isinstance_module member = false ->
        attr py_cast (PythonValue self) loc field m =
        (Throw (ErrorReport loc [Text "unsupported attribute lookup on ";
                                 Repr self; Text "."]), m))
  /\ (forall v m',
        attr py_cast (PythonValue self) loc field m = (Return v, m') ->
        m' = m /\
        exists member,
          Py.GetAttrString self field = Some member /\
          ((v = BuiltinFunction field /\ isBuiltinModule self = true /\
            Py.isinstance_function member = true)
           \/ (v = PythonValue member /\ Py.isinstance_module self = true /\
               Py.isinstance_module member = true))).
Proof.
  split; [|split].
  - intros Hnone. simpl. unfold PythonValue_attr, bind, PythonValue_getattr.
    rewrite Hnone. reflexivity.
  - intros member Hmem Hb Hm. simpl.
    unfold PythonValue_attr, bind, PythonValue_getattr.
    rewrite Hmem. simpl. rewrite Hb, Hm. reflexivity.
  - intros v m' H. simpl in H.
    unfold PythonValue_attr, bind, PythonValue_getattr in H.
    destruct (Py.GetAttrString self field) as [member|]; [|discriminate].
    simpl in H.
    destruct (isBuiltinModule self && Py.isinstance_function member) eqn:Hb.
    + inversion H; subst. split; [reflexivity|].
      exists member. split; [reflexivity|]. left.
      apply andb_true_iff in Hb. destruct Hb. repeat split; assumption.
    + destruct (Py.isinstance_module self && Py.isinstance_module member)
        eqn:Hm; [|discriminate].
      inversion H; subst. split; [reflexivity|].
      exists member. split; [reflexivity|]. right.
      apply andb_true_iff in Hm. destruct Hm. repeat split; assumption.
Qed.

Lemma PythonValue_attr_resolution_witness :
  attr no_host (PythonValue config_object) loc0 "layers" fresh_method =
    (Throw (ErrorReport loc0 [Text "unsupported attribute lookup on ";
                              Repr config_object; Text "."]), fresh_method)
  /\ attr no_host (PythonValue torch) loc0 "long" fresh_method =
    (Throw (ErrorReport loc0 [Text "unsupported attribute lookup on ";
                              Repr torch; Text "."]), fresh_method)
  /\ attr no_host (PythonValue config_object) loc0 "depth" fresh_method =
    (Throw (ErrorReport loc0 [Text "object has no attribute "; Text "depth"]),
     fresh_method).
Proof.
  split; [|split].
  - exact (proj1 (proj2 (PythonValue_attr_resolution no_host config_object
                           loc0 "layers" fresh_method))
             (Py.Int 3) eq_refl eq_refl eq_refl).
  - exact (proj1 (proj2 (PythonValue_attr_resolution no_host torch
                           loc0 "long" fresh_method))
             (Py.Instance "dtype" []) eq_refl eq_refl eq_refl).
  - exact (proj1 (PythonValue_attr_resolution no_host config_object
                    loc0 "depth" fresh_method) eq_refl).
Defined.

(** What [attr] returns on the allow-listed namespaces and on a namespace
    that is not allow-listed. *)
Example PythonValue_attr_torch :
  attr no_host (PythonValue torch) loc0 "add" fresh_method =
    (Return (BuiltinFunction "add"), fresh_method)
  /\ attr no_host (PythonValue torch) loc0 "nn" fresh_method =
    (Return (PythonValue torch_nn), fresh_method)
  /\ attr no_host (PythonValue torch_nn) loc0 "functional" fresh_method =
    (Return (PythonValue torch_functional), fresh_method)
  /\ attr no_host (PythonValue torch_functional) loc0 "relu" fresh_method =
    (Return (BuiltinFunction "relu"), fresh_method).
Proof. repeat split. Qed.

(** C8, as stated, fails: an object that is neither allow-listed nor a
    namespace, asked for a member it does not have, fails with "object has
    no attribute", not with "unsupported attribute lookup". *)
Lemma PythonValue_attr_missing_member_message :
  isBuiltinModule config_object = false
  /\ Py.isinstance_module config_object = false
  /\ attr no_host (PythonValue config_object) loc0 "depth" fresh_method =
     (Throw (ErrorReport loc0 [Text "object has no attribute "; Text "depth"]),
      fresh_method)
  /\ attr no_host (PythonValue config_object) loc0 "depth" fresh_method <>
     (Throw (ErrorReport loc0 [Text "unsupported attribute lookup on ";
                               Repr config_object; Text "."]), fresh_method).
Proof.
  repeat split. intros H. discriminate H.
Qed.

(** ** Calling a method value *)

Lemma get_or_add_parameters_returns (slots : list Slot) (m : Method) :
  exists vs m', get_or_add_parameters slots m = (Return vs, m').
Proof.
  revert m. induction slots as [|s rest IH]; intros m; simpl.
  - exists [], m. reflexivity.
  - unfold bind.
    destruct (get_or_add_parameter_registers s m) as [v [m1 [Hget _]]].
    rewrite Hget. destruct (IH m1) as [vs [m2 Hrest]]. rewrite Hrest.
    exists (v :: vs), m2. reflexivity.
Qed.

Lemma fresh_values_length (n from : nat) :
  List.length (fresh_values n from) = n.
Proof.
  revert from. induction n as [|n IH]; intros from; simpl;
    [reflexivity | rewrite IH; reflexivity].
Qed.

(** [emit_call_to] always gives back one value per output of the callee. *)
Lemma emit_call_to_outputs (callee : Method) (inputs : list Value)
    (m : Method) :
  exists outputs m',
    emit_call_to callee inputs m = (Return outputs, m')
    /\ List.length outputs = List.length (graph_outputs (graph callee)).
Proof.
  unfold emit_call_to, bind.
  destruct (get_or_add_parameters_returns (map fst (member_inputs callee)) m)
    as [vs [m1 Hps]].
  rewrite Hps. unfold emit_node. eexists; eexists. split; [reflexivity|].
  apply fresh_values_length.
Qed.

(** C3.  [call] on a method value with no keyword argument.  A number of
    inputs other than the declared input count of the method fails with
    "expected <declared> inputs but found <supplied>", nothing emitted.
    Otherwise the call is emitted and gives one output per output of the
    method; a number of outputs other than [n_outputs] fails with
    "expected <produced> outputs but found <n_outputs>", the emitted call
    staying in the graph; else these outputs are returned, in order. *)
Theorem MethodValue_call_arity (py_cast : Module -> Py.object)
    (module : Module) (method : Method) (loc : SourceRange)
    (inputs : list Value) (n_outputs : nat) (m : Method) :
  (num_inputs method <> List.length inputs ->
     call py_cast (MethodValue module method) loc inputs [] n_outputs m =
     (Throw (arity_error loc (num_inputs method) "inputs" (List.length inputs)),
      m))
  /\ (num_inputs method = List.length inputs ->
      exists outputs m',
        emit_call_to method inputs m = (Return outputs, m')
        /\ List.length outputs = List.length (graph_outputs (graph method))
        /\ (List.length outputs <> n_outputs ->
            call py_cast (MethodValue module method) loc inputs [] n_outputs m =
            (Throw (arity_error loc (List.length outputs) "outputs" n_outputs),
             m'))
        /\ (List.length outputs = n_outputs ->
            call py_cast (MethodValue module method) loc inputs [] n_outputs m =
            (Return outputs, m'))).
Proof.
  split.
  - intros Hne. simp call. unfold MethodValue_call. simpl.
    unfold bind, ensureSizeMatches.
    apply Nat.eqb_neq in Hne. rewrite Hne. reflexivity.
  - intros Heq.
    destruct (emit_call_to_outputs method inputs m)
      as [outputs [m' [Hemit Hlen]]].
    exists outputs, m'. split; [exact Hemit|]. split; [exact Hlen|].
    split; intros Hout; simp call; unfold MethodValue_call; simpl;
      unfold bind, ensureSizeMatches; rewrite Heq, Nat.eqb_refl; simpl;
      rewrite Hemit.
    + apply Nat.eqb_neq in Hout. rewrite Hout. reflexivity.
    + apply Nat.eqb_eq in Hout. rewrite Hout. reflexivity.
Qed.

Lemma MethodValue_call_arity_witness :
  call no_host (MethodValue net forward_method) loc0 three_inputs [] 2
       fresh_method =
    (Throw (ErrorReport loc0 [Text "expected "; Count 2; Text " ";
                              Text "inputs"; Text " but found "; Count 3]),
     fresh_method)
  /\ exists outputs m',
      emit_call_to forward_method two_inputs fresh_method = (Return outputs, m')
      /\ call no_host (MethodValue net forward_method) loc0 two_inputs [] 1
              fresh_method =
         (Throw (ErrorReport loc0 [Text "expected "; Count 2; Text " ";
                                   Text "outputs"; Text " but found "; Count 1]),
          m')
      /\ call no_host (MethodValue net forward_method) loc0 two_inputs [] 2
              fresh_method =
         (Return outputs, m').
Proof.
  split.
  - apply (proj1 (MethodValue_call_arity no_host net forward_method loc0
                    three_inputs 2 fresh_method)).
    vm_compute. lia.
  - destruct (proj2 (MethodValue_call_arity no_host net forward_method loc0
                       two_inputs 1 fresh_method) eq_refl)
      as [outputs [m' [Hemit [Hlen [Hbad _]]]]].
    destruct (proj2 (MethodValue_call_arity no_host net forward_method loc0
                       two_inputs 2 fresh_method) eq_refl)
      as [outputs' [m'' [Hemit' [Hlen' [_ Hgood]]]]].
    rewrite Hemit in Hemit'. inversion Hemit'; subst outputs' m''.
    exists outputs, m'. rewrite Hlen in Hbad.
    split; [exact Hemit|]. split.
    + apply Hbad. simpl. lia.
    + apply Hgood. exact Hlen.
Defined.

(** C3, as stated, fails: with a keyword argument, a call with three
    inputs to a method declared with two fails with the report on keyword
    arguments, not with an arity error. *)
Lemma MethodValue_call_keywords_before_arity :
  num_inputs forward_method = 2
  /\ List.length three_inputs = 3
  /\ call no_host (MethodValue net forward_method) loc0 three_inputs
          [keyword_dim] 2 fresh_method =
     (Throw (ErrorReport loc0
               [Text "not yet implemented - calls to python functions using keyword arguments"]),
      fresh_method)
  /\ (forall expected what actual m',
        call no_host (MethodValue net forward_method) loc0 three_inputs
             [keyword_dim] 2 fresh_method <>
        (Throw (arity_error loc0 expected what actual), m')).
Proof.
  repeat split. intros expected what actual m' H.
  vm_compute in H. discriminate H.
Qed.

(** ** Keyword arguments *)

Lemma nonempty_length {A} (l : list A) :
  l <> [] -> (0 <? List.length l) = true.
Proof. destruct l; [contradiction | reflexivity]. Qed.

Lemma call_keywords_rejected (py_cast : Module -> Py.object)
    (v : SugaredValue) (loc : SourceRange) (inputs : list Value)
    (attributes : list Attribute) (n_outputs : nat) (m : Method) :
  attributes <> [] ->
  rejects_keywords v = true ->
  exists e,
    call py_cast v loc inputs attributes n_outputs m = (Throw e, m)
    /\ keyword_arguments_error loc e.
Proof.
  intros Hattrs Hv.
  destruct v; try discriminate Hv; simp call.
  - unfold BuiltinFunction_call. rewrite (nonempty_length _ Hattrs).
    eexists. split; [reflexivity|]. left. reflexivity.
  - unfold PythonValue_call. rewrite (nonempty_length _ Hattrs).
    eexists. split; [reflexivity|]. left. reflexivity.
  - unfold PythonValue_call. rewrite (nonempty_length _ Hattrs).
    eexists. split; [reflexivity|]. left. reflexivity.
  - unfold MethodValue_call.
    destruct attributes as [|a rest]; [contradiction|]. simpl.
    eexists. split; [reflexivity|]. right. reflexivity.
Qed.

(** With a keyword argument, no call returns. *)
Lemma call_keywords_throws (py_cast : Module -> Py.object)
    (v : SugaredValue) (loc : SourceRange) (inputs : list Value)
    (attributes : list Attribute) (n_outputs : nat) (m : Method) :
  attributes <> [] ->
  exists e m', call py_cast v loc inputs attributes n_outputs m = (Throw e, m').
Proof.
  intros Hattrs.
  funelim (call py_cast v loc inputs attributes n_outputs m).
  - eexists; eexists; reflexivity.
  - unfold BuiltinFunction_call. rewrite (nonempty_length _ Hattrs).
    eexists; eexists; reflexivity.
  - unfold PythonValue_call. rewrite (nonempty_length _ Hattrs).
    eexists; eexists; reflexivity.
  - unfold PythonValue_call. rewrite (nonempty_length _ Hattrs).
    eexists; eexists; reflexivity.
  - unfold MethodValue_call.
    destruct attributes as [|a rest]; [contradiction|]. simpl.
    eexists; eexists; reflexivity.
  - match goal with IH : _ -> exists _ _, _ |- _ => exact (IH Hattrs) end.
  - eexists; eexists; reflexivity.
Qed.

(** C4.  A call with a keyword argument never returns.  On a builtin
    function, a Python value, a constant value and a method value it fails
    with the report on keyword arguments, nothing emitted.  On a module
    value it fails as the call on what [attr "forward"] resolves to, so
    with that report when "forward" resolves to one of those variants, and
    with the exception of [attr] when the resolution fails. *)
Theorem call_keyword_arguments (py_cast : Module -> Py.object)
    (v : SugaredValue) (loc : SourceRange) (inputs : list Value)
    (attributes : list Attribute) (n_outputs : nat) (m : Method) :
  attributes <> [] ->
  (exists e m',
     call py_cast v loc inputs attributes n_outputs m = (Throw e, m'))
  /\ (rejects_keywords v = true ->
      exists e,
        call py_cast v loc inputs attributes n_outputs m = (Throw e, m)
        /\ keyword_arguments_error loc e)
  /\ (forall this forward m',
        v = ModuleValue this ->
        attr py_cast v loc "forward" m = (Return forward, m') ->
        rejects_keywords forward = true ->
        exists e,
          call py_cast v loc inputs attributes n_outputs m = (Throw e, m')
          /\ keyword_arguments_error loc e)
  /\ (forall this e m',
        v = ModuleValue this ->
        attr py_cast v loc "forward" m = (Throw e, m') ->
        call py_cast v loc inputs attributes n_outputs m = (Throw e, m')).
Proof.
  intros Hattrs. split; [|split; [|split]].
  - apply call_keywords_throws. exact Hattrs.
  - apply call_keywords_rejected. exact Hattrs.
  - intros this forward m' -> Hattr Hfwd. simpl in Hattr.
    rewrite call_ModuleValue, Hattr.
    apply call_keywords_rejected; assumption.
  - intros this e m' -> Hattr. simpl in Hattr.
    rewrite call_ModuleValue, Hattr. reflexivity.
Qed.

Lemma call_keyword_arguments_witness :
  call no_host (PythonValue torch) loc0 two_inputs [keyword_dim] 1
       fresh_method =
    (Throw (ErrorReport loc0
              [Text "keyword arguments in Python calls aren't supported"]),
     fresh_method)
  /\ (exists e,
        call (host_with_forward python_forward) (ModuleValue plain_module)
             loc0 two_inputs [keyword_dim] 1 fresh_method =
        (Throw e, fresh_method)
        /\ keyword_arguments_error loc0 e).
Proof.
  assert (Hattrs : [keyword_dim] <> []) by discriminate.
  split.
  - destruct (proj1 (proj2 (call_keyword_arguments no_host (PythonValue torch)
                              loc0 two_inputs [keyword_dim] 1 fresh_method
                              Hattrs)) eq_refl)
      as [e [Hcall _]].
    rewrite Hcall. vm_compute in Hcall. inversion Hcall. reflexivity.
  - exact (proj1 (proj2 (proj2
             (call_keyword_arguments (host_with_forward python_forward)
                (ModuleValue plain_module) loc0 two_inputs [keyword_dim] 1
                fresh_method Hattrs)))
             plain_module (PythonValue python_forward) fresh_method
             eq_refl eq_refl eq_refl).
Defined.

(** C4, as stated, fails: a module value whose "forward" is a number is
    called with a keyword argument and fails in [attr], with the report on
    the attribute, not on keyword arguments; a simple value fails as not
    callable. *)
Lemma ModuleValue_call_keywords_attr_first :
  [keyword_dim] <> []
  /\ call (host_with_forward (Py.Int 0)) (ModuleValue plain_module) loc0
          two_inputs [keyword_dim] 1 fresh_method =
     (Throw (ErrorReport loc0
               [Text "attribute '"; Text "forward"; Text "' of type '";
                Text "int";
                Text "' is not usable in a script method (did you forget to add it __constants__?)"]),
      fresh_method)
  /\ ~ (exists e m',
          call (host_with_forward (Py.Int 0)) (ModuleValue plain_module) loc0
               two_inputs [keyword_dim] 1 fresh_method = (Throw e, m')
          /\ keyword_arguments_error loc0 e)
  /\ call no_host (SimpleValue {| unique := 10 |}) loc0 two_inputs
          [keyword_dim] 1 fresh_method =
     (Throw (NotSupported loc0 (kind (SimpleValue {| unique := 10 |})) CanCall),
      fresh_method).
Proof.
  split; [discriminate|]. split; [reflexivity|]. split; [|reflexivity].
  intros [e [m' [Hcall [He|He]]]]; subst e; vm_compute in Hcall;
    discriminate Hcall.
Qed.


(** ** Gathering the parameters of a module tree *)

(** Induction on a module, the property holding for its submodules. *)
Lemma Module_subs_ind (P : Module -> Prop) :
  (forall subs params meths,
     Forall (fun p => P (snd p)) subs -> P (Build_Module subs params meths)) ->
  forall m, P m.
Proof.
  intros H. fix IH 1. intros [subs params meths]. apply H.
  induction subs as [|[k sub] rest IHrest]; constructor;
    [apply IH | exact IHrest].
Qed.

Lemma gather_unfold (subs : list (string * Module))
    (params : list NamedParameter) (meths : list Method) (values : list Slot) :
  gatherParametersAndBuffers values (Build_Module subs params meths) =
  fold_left (fun vs p => gatherParametersAndBuffers vs (snd p)) subs
            (values ++ map slot params).
Proof.
  simpl. generalize (values ++ map slot params).
  induction subs as [|[k sub] rest IH]; intros acc; simpl;
    [reflexivity | apply IH].
Qed.

Lemma gather_fold_append (subs : list (string * Module)) :
  Forall (fun p => forall values,
            gatherParametersAndBuffers values (snd p) =
            values ++ gatherParametersAndBuffers [] (snd p)) subs ->
  forall acc,
    fold_left (fun vs p => gatherParametersAndBuffers vs (snd p)) subs acc =
    acc ++ fold_left (fun vs p => gatherParametersAndBuffers vs (snd p)) subs [].
Proof.
  induction 1 as [|[k sub] rest Hsub _ IH]; intros acc; simpl.
  - rewrite app_nil_r. reflexivity.
  - simpl in Hsub. rewrite IH.
    rewrite (IH (gatherParametersAndBuffers [] sub)).
    rewrite (Hsub acc). rewrite app_assoc. reflexivity.
Qed.

Lemma gather_append (m : Module) (values : list Slot) :
  gatherParametersAndBuffers values m =
  values ++ gatherParametersAndBuffers [] m.
Proof.
  revert values. induction m as [subs params meths IH] using Module_subs_ind.
  intros values. rewrite !gather_unfold.
  rewrite (gather_fold_append subs IH (values ++ map slot params)).
  rewrite (gather_fold_append subs IH ([] ++ map slot params)).
  simpl. rewrite app_assoc. reflexivity.
Qed.

Lemma gather_fold_concat (subs : list (string * Module)) (acc : list Slot) :
  fold_left (fun vs p => gatherParametersAndBuffers vs (snd p)) subs acc =
  acc ++ List.concat (map (fun p => gatherParametersAndBuffers [] (snd p)) subs).
Proof.
  revert acc. induction subs as [|[k sub] rest IH]; intros acc; simpl.
  - rewrite app_nil_r. reflexivity.
  - rewrite IH, (gather_append sub acc), app_assoc. reflexivity.
Qed.

Lemma gather_preorder (m : Module) :
  gatherParametersAndBuffers [] m =
  map slot (get_parameters m) ++
  List.concat (map (fun nm => gatherParametersAndBuffers [] (module nm))
              (get_modules m)).
Proof.
  destruct m as [subs params meths]. rewrite gather_unfold, gather_fold_concat.
  simpl. rewrite map_map. reflexivity.
Qed.

Lemma count_unfold (subs : list (string * Module))
    (params : list NamedParameter) (meths : list Method) :
  count_parameters (Build_Module subs params meths) =
  List.length params + list_sum (map (fun p => count_parameters (snd p)) subs).
Proof.
  simpl. f_equal.
  induction subs as [|[k sub] rest IH]; simpl; [reflexivity | rewrite IH; reflexivity].
Qed.

Lemma gather_length (m : Module) :
  List.length (gatherParametersAndBuffers [] m) = count_parameters m.
Proof.
  induction m as [subs params meths IH] using Module_subs_ind.
  rewrite gather_unfold, gather_fold_concat, count_unfold.
  simpl. rewrite length_app, length_map. f_equal.
  induction IH as [|[k sub] rest Hsub _ IHrest]; simpl; [reflexivity|].
  rewrite length_app, IHrest. simpl in Hsub. rewrite Hsub. reflexivity.
Qed.

(** X1.  [gatherParametersAndBuffers] only pushes at the back of [values],
    in pre-order: the slots of the module's own parameters and buffers, in
    registration order, then what each submodule gathers, in the order of
    the submodules. *)
Theorem gatherParametersAndBuffers_preorder (m : Module) (values : list Slot) :
  gatherParametersAndBuffers values m =
  values ++ map slot (get_parameters m) ++
  List.concat (map (fun nm => gatherParametersAndBuffers [] (module nm))
              (get_modules m)).
Proof. rewrite gather_append, gather_preorder. reflexivity. Qed.

(** X2.  One slot is pushed for every parameter and every buffer of the
    tree, nothing being merged: a module registered twice is gathered
    twice. *)
Theorem gatherParametersAndBuffers_length (m : Module) (values : list Slot) :
  List.length (gatherParametersAndBuffers values m) =
  List.length values + count_parameters m.
Proof. rewrite gather_append, length_app, gather_length. reflexivity. Qed.

(** X3.  Every parameter of the module, buffer or not, has its slot
    gathered, and so has everything a submodule gathers. *)
Theorem gatherParametersAndBuffers_complete (m : Module) (values : list Slot) :
  (forall p, In p (get_parameters m) ->
             In (slot p) (gatherParametersAndBuffers values m))
  /\ (forall nm s, In nm (get_modules m) ->
                   In s (gatherParametersAndBuffers [] (module nm)) ->
                   In s (gatherParametersAndBuffers values m)).
Proof.
  rewrite gather_append, gather_preorder. split.
  - intros p Hp. apply in_or_app. right. apply in_or_app. left.
    apply in_map. exact Hp.
  - intros nm s Hnm Hs. apply in_or_app. right. apply in_or_app. right.
    apply in_concat. exists (gatherParametersAndBuffers [] (module nm)).
    split; [|exact Hs].
    apply (in_map (fun nm => gatherParametersAndBuffers [] (module nm))).
    exact Hnm.
Qed.

Lemma gatherParametersAndBuffers_complete_witness :
  In 1 (gatherParametersAndBuffers [7] two_layers)
  /\ In 21 (gatherParametersAndBuffers [7] two_layers).
Proof.
  destruct (gatherParametersAndBuffers_complete two_layers [7]) as [Hown Hsub].
  split.
  - apply (Hown {| param_name := "bias"; is_buffer := false; slot := 1 |}).
    simpl. left. reflexivity.
  - apply (Hsub {| name := "conv2"; module := conv_layer 20 |} 21).
    + simpl. right. left. reflexivity.
    + simpl. right. left. reflexivity.
Defined.

Example gather_two_layers :
  gatherParametersAndBuffers [7] two_layers = [7; 1; 10; 11; 20; 21]
  /\ count_parameters two_layers = 5.
Proof. split; reflexivity. Qed.

(** ** Arguments and results of a compiled method *)






(** ** The resolver *)

(** X6.  [pythonResolver] gives no value exactly when the callback
    returns None, rethrows when the callback raises, and otherwise wraps
    the very object returned in a Python value, never in a constant or any
    other variant. *)
Theorem pythonResolver_result (rcb : string -> option Py.object)
    (name : string) :
  (pythonResolver rcb name = Return None <-> rcb name = Some Py.None_)
  /\ (pythonResolver rcb name = Throw error_already_set <-> rcb name = None)
  /\ (forall v, pythonResolver rcb name = Return (Some v) <->
                exists obj, v = PythonValue obj /\ rcb name = Some obj /\
                            obj <> Py.None_).
Proof.
  unfold pythonResolver.
  destruct (rcb name) as [obj|].
  - destruct (is_none obj) eqn:E.
    + assert (Hobj : obj = Py.None_)
        by (destruct obj; try discriminate E; reflexivity).
      subst obj.
      split; [split; reflexivity|].
      split; [split; intros H; discriminate H|].
      intros v. split; [intros H; discriminate H|].
      intros [o [_ [Ho Hn]]]. injection Ho as <-. contradiction.
    + assert (Hn : obj <> Py.None_) by (intros ->; discriminate E).
      split; [split; intros H; [discriminate H | injection H as ->; contradiction]|].
      split; [split; intros H; discriminate H|].
      intros v. split.
      * intros H. injection H as <-. exists obj.
        split; [reflexivity|]. split; [reflexivity | exact Hn].
      * intros [o [-> [Ho _]]]. injection Ho as <-. reflexivity.
  - split; [split; intros H; discriminate H|].
    split; [split; reflexivity|].
    intros v. split; [intros H; discriminate H|].
    intros [o [_ [Ho _]]]. discriminate Ho.
Qed.

(** ** What a call on a Python value emits *)

Lemma fresh_values_bounds (n from : nat) (v : Value) :
  In v (fresh_values n from) -> from <= unique v < from + n.
Proof.
  revert from. induction n as [|n IH]; intros from H; simpl in H; [contradiction|].
  destruct H as [<-|H]; simpl; [lia|].
  apply IH in H. lia.
Qed.

Lemma fresh_values_NoDup (n from : nat) : NoDup (fresh_values n from).
Proof.
  revert from. induction n as [|n IH]; intros from; simpl; constructor.
  - intros H. apply fresh_values_bounds in H. simpl in H. lia.
  - apply IH.
Qed.

Lemma cconv_of_length (n : nat) : String.length (cconv_of n) = n.
Proof.
  unfold cconv_of. induction n as [|n IH]; simpl; [reflexivity | rewrite IH; reflexivity].
Qed.

(** X7.  A call on a Python value with no keyword argument always
    succeeds: it returns [n_outputs] values, pairwise distinct and
    numbered from the graph's counter on, and appends to the graph one
    Python node holding the wrapped object, the inputs in order and one
    calling-convention letter per input; the nodes already there, the
    graph inputs and the captured parameters stay as they were. *)
Theorem PythonValue_call_emits (py_cast : Module -> Py.object)
    (self : Py.object) (loc : SourceRange) (inputs : list Value)
    (n_outputs : nat) (m : Method) :
  exists outputs m',
    call py_cast (PythonValue self) loc inputs [] n_outputs m =
      (Return outputs, m')
    /\ List.length outputs = n_outputs
    /\ NoDup outputs
    /\ (forall v, In v outputs ->
          next_unique (graph m) <= unique v < next_unique (graph m'))
    /\ graph_nodes (graph m') =
       graph_nodes (graph m) ++
       [ {| kind_of := PythonOp self (cconv_of (List.length inputs));
            source_location := Some loc;
            node_inputs := inputs;
            node_outputs := outputs |} ]
    /\ String.length (cconv_of (List.length inputs)) = List.length inputs
    /\ graph_inputs (graph m') = graph_inputs (graph m)
    /\ member_inputs m' = member_inputs m.
Proof.
  simp call. unfold PythonValue_call. simpl. unfold emit_node.
  eexists; eexists. split; [reflexivity|]. simpl.
  split; [apply fresh_values_length|].
  split; [apply fresh_values_NoDup|].
  split; [intros v Hv; apply fresh_values_bounds in Hv; exact Hv|].
  split; [reflexivity|].
  split; [apply cconv_of_length|].
  split; reflexivity.
Qed.

(** ** Constant values, further *)

(** X8.  [asValue] on a constant host integer returns exactly when the
    integer fits 32 bits; otherwise [py::cast<int32_t>] throws and the
    method under construction is left as it was. *)
Theorem asValue_int_fits (z : Z) (loc : SourceRange) (m : Method) :
  ((exists v m', asValue (ConstantPythonValue (Py.Int z)) loc m = (Return v, m'))
   <-> int32_range z)
  /\ (~ int32_range z ->
      asValue (ConstantPythonValue (Py.Int z)) loc m = (Throw cast_error, m)).
Proof.
  unfold int32_range. split.
  - split.
    + intros [v [m' H]].
      destruct (Z_le_dec (- 2147483648) z) as [Hlo|Hlo];
        [destruct (Z_le_dec z 2147483647) as [Hhi|Hhi]; [split; assumption|]|];
        rewrite asValue_int_out_of_range in H by lia; discriminate H.
    + intros Hr. rewrite (asValue_int z loc m Hr), createConstant_emits.
      eexists; eexists; reflexivity.
  - intros Hn. apply asValue_int_out_of_range. lia.
Qed.

Lemma asValue_int_fits_witness :
  asValue (ConstantPythonValue (Py.Int 4294967296)) loc0 fresh_method =
  (Throw cast_error, fresh_method).
Proof.
  apply (proj2 (asValue_int_fits 4294967296 loc0 fresh_method)).
  unfold int32_range. lia.
Defined.

(** X9.  [asValue] on a constant value either returns the one output of
    one constant node it appended to the graph, holding a tensor of no
    dimension of kind [kInt] or [kFloat], or throws and leaves the method
    under construction as it was. *)
Theorem asValue_constant_emission (self : Py.object) (loc : SourceRange)
    (m : Method) :
  match asValue (ConstantPythonValue self) loc m with
  | (Return v, m') =>
      exists val,
        graph_nodes (graph m') =
          graph_nodes (graph m) ++
          [ {| kind_of := Constant val; source_location := Some loc;
               node_inputs := []; node_outputs := [v] |} ]
        /\ sizes val = []
        /\ (scalar_type val = kInt \/ scalar_type val = kFloat)
        /\ v = {| unique := next_unique (graph m) |}
        /\ graph_inputs (graph m') = graph_inputs (graph m)
        /\ member_inputs m' = member_inputs m
  | (Throw _, m') => m' = m
  end.
Proof.
  unfold asValue, ConstantPythonValue_asValue.
  destruct self; simpl; try reflexivity.
  - eexists. repeat split. left. reflexivity.
  - unfold bind, py_cast_or_throw.
    destruct ((-2147483648 <=? z)%Z && (z <=? 2147483647)%Z); simpl;
      [|reflexivity].
    eexists. repeat split. left. reflexivity.
  - eexists. repeat split. right. reflexivity.
Qed.

Lemma asValue_each_ints (loc : SourceRange) (zs : list Z) (m : Method) :
  Forall int32_range zs ->
  exists m',
    asValue_each (map (fun z => ConstantPythonValue (Py.Int z)) zs) loc m =
      (Return (fresh_values (List.length zs) (next_unique (graph m))), m')
    /\ graph_nodes (graph m') =
       graph_nodes (graph m) ++ constant_nodes loc zs (next_unique (graph m))
    /\ next_unique (graph m') = next_unique (graph m) + List.length zs.
Proof.
  intros Hzs. revert m. induction Hzs as [|z rest Hz _ IH]; intros m.
  - exists m. simpl. rewrite app_nil_r, Nat.add_0_r. repeat split.
  - cbn [map asValue_each]. unfold bind at 1.
    rewrite (asValue_int z loc m Hz), createConstant_emits.
    cbv beta iota. unfold bind.
    match goal with
    | |- context [asValue_each _ loc ?m1] =>
        destruct (IH m1) as [m' [Hrun [Hnodes Hnext]]]
    end.
    rewrite Hrun. simpl in Hnodes, Hnext.
    exists m'. simpl. split; [|split].
    + rewrite Nat.add_1_r. reflexivity.
    + rewrite Hnodes, <- app_assoc. simpl. rewrite Nat.add_1_r. reflexivity.
    + rewrite Hnext. lia.
Qed.

(** X10.  Unrolling a constant tuple of integers that fit 32 bits and
    converting each value in turn appends one integer constant per
    element to the graph, in the order of the tuple, and returns their
    outputs in that order. *)
Theorem unrolledFor_then_asValue (loc : SourceRange) (zs : list Z)
    (m : Method) :
  Forall int32_range zs ->
  exists outputs m',
    (vs <- ConstantPythonValue_unrolledFor (Py.Tuple (map Py.Int zs)) loc;;
     asValue_each vs loc) m = (Return outputs, m')
    /\ List.length outputs = List.length zs
    /\ graph_nodes (graph m') =
       graph_nodes (graph m) ++ constant_nodes loc zs (next_unique (graph m))
    /\ map node_outputs (constant_nodes loc zs (next_unique (graph m))) =
       map (fun v => [v]) outputs.
Proof.
  intros Hzs.
  destruct (asValue_each_ints loc zs m Hzs) as [m' [Hrun [Hnodes _]]].
  exists (fresh_values (List.length zs) (next_unique (graph m))), m'.
  split; [|split; [apply fresh_values_length | split; [exact Hnodes|]]].
  - unfold bind, ConstantPythonValue_unrolledFor. simpl.
    rewrite map_map. exact Hrun.
  - clear. generalize (next_unique (graph m)).
    induction zs as [|z rest IH]; intros from; simpl; [reflexivity|].
    rewrite IH. reflexivity.
Qed.

Lemma unrolledFor_then_asValue_witness :
  exists outputs m',
    (vs <- ConstantPythonValue_unrolledFor
             (Py.Tuple (map Py.Int [7; -1]%Z)) loc0;;
     asValue_each vs loc0) fresh_method = (Return outputs, m')
    /\ List.length outputs = 2.
Proof.
  assert (Hzs : Forall int32_range [7; -1]%Z).
  { repeat constructor; unfold int32_range; lia. }
  destruct (unrolledFor_then_asValue loc0 [7; -1]%Z fresh_method Hzs)
    as [outputs [m' [Hrun [Hlen _]]]].
  exists outputs, m'. split; [exact Hrun | exact Hlen].
Defined.

(** ** Membership queries and what [attr] resolves to *)

Lemma find_name_in {A} (key : A -> string) (l : list A) (field : string) :
  (exists a, find (fun a => String.eqb (key a) field) l = Some a) <->
  In field (map key l).
Proof.
  induction l as [|x rest IH]; simpl.
  - split; [intros [a H]; discriminate H | contradiction].
  - destruct (String.eqb (key x) field) eqn:E.
    + apply String.eqb_eq in E. split; [intros _; left; exact E|].
      intros _. exists x. reflexivity.
    + apply String.eqb_neq in E. rewrite IH.
      split; [intros H; right; exact H | intros [H|H]; [contradiction | exact H]].
Qed.

(** X11.  [_has_module] and [_has_method] answer true exactly for the
    names listed by [_get_modules] and [_method_names]. *)
Theorem has_module_has_method_enumerated (self : Module) (field : string) :
  (_has_module self field = true <-> In field (map fst (_get_modules self)))
  /\ (_has_method self field = true <-> In field (_method_names self)).
Proof.
  unfold _has_module, _has_method, _get_modules, _method_names.
  unfold find_module, find_method. split.
  - rewrite map_map. simpl.
    rewrite <- (find_name_in name (get_modules self) field).
    destruct (find _ (get_modules self)) as [nm|].
    + split; [intros _; exists nm; reflexivity | reflexivity].
    + split; [discriminate | intros [a H]; discriminate H].
  - rewrite <- (find_name_in method_name (get_methods self) field).
    destruct (find _ (get_methods self)) as [me|].
    + split; [intros _; exists me; reflexivity | reflexivity].
    + split; [discriminate | intros [a H]; discriminate H].
Qed.

Lemma find_module_in (this : Module) (field : string) (nm : NamedModule) :
  find_module this field = Some nm ->
  name nm = field /\ In (field, module nm) (_get_modules this).
Proof.
  unfold find_module, _get_modules. intros H. apply find_some in H.
  destruct H as [Hin Heq]. apply String.eqb_eq in Heq. split; [exact Heq|].
  subst field. apply (in_map (fun nm => (name nm, module nm))). exact Hin.
Qed.

Lemma find_method_in (this : Module) (field : string) (me : Method) :
  find_method this field = Some me ->
  method_name me = field /\ In me (get_methods this).
Proof.
  unfold find_method. intros H. apply find_some in H.
  destruct H as [Hin Heq]. apply String.eqb_eq in Heq. split; assumption.
Qed.

(** X12.  The variant [attr] returns on a module value tells where the
    field was found.  A module value wraps a registered submodule of that
    name; a method value pairs the module itself with a registered method
    of that name, no submodule having the name; a simple value means a
    parameter or a buffer of that name and no submodule or method; a
    Python or constant value means that none of the four queries knows the
    name.  A builtin function is never returned, and only a simple value
    can come with a change of the method under construction. *)
Theorem ModuleValue_attr_variant (py_cast : Module -> Py.object)
    (this : Module) (loc : SourceRange) (field : string) (m m' : Method)
    (v : SugaredValue) :
  attr py_cast (ModuleValue this) loc field m = (Return v, m') ->
  match v with
  | ModuleValue sub =>
      _has_module this field = true
      /\ In (field, sub) (_get_modules this) /\ m' = m
  | MethodValue owner method =>
      owner = this /\ method_name method = field
      /\ In method (get_methods this)
      /\ _has_module this field = false /\ _has_method this field = true
      /\ m' = m
  | SimpleValue _ =>
      _has_module this field = false /\ _has_method this field = false
      /\ _has_parameter this field || _has_buffer this field = true
  | PythonValue _ | ConstantPythonValue _ =>
      _has_module this field = false /\ _has_method this field = false
      /\ _has_parameter this field = false /\ _has_buffer this field = false
      /\ m' = m
  | BuiltinFunction _ => False
  end.
Proof.
  simpl. unfold ModuleValue_attr, _has_module, _has_method, _has_parameter,
    _has_buffer.
  destruct (find_module this field) as [nm|] eqn:Hmod.
  { intros H. injection H as <- <-. apply find_module_in in Hmod.
    split; [reflexivity|]. split; [apply Hmod | reflexivity]. }
  destruct (find_method this field) as [me|] eqn:Hmeth.
  { intros H. injection H as <- <-. apply find_method_in in Hmeth.
    destruct Hmeth as [Hname Hin]. repeat split; assumption. }
  destruct (find_parameter this field) as [p|] eqn:Hpar.
  { unfold bind, get_or_add_parameter.
    destruct (find_slot (slot p) (member_inputs m)); intros H;
      injection H as <- <-; (split; [reflexivity|]); (split; [reflexivity|]);
      destruct (is_buffer p); reflexivity. }
  destruct (Py.getattr_default (py_cast this) field Py.None_) as [a|];
    [|discriminate].
  destruct (Py.isinstance_function a || Py.isinstance_nn_Module a).
  { intros H. injection H as <- <-. repeat split. }
  unfold bind, attr_contains.
  destruct (Py.GetAttrString (py_cast this) "_constants_set") as [cs|];
    [|discriminate].
  destruct (Py.contains cs field) as [[|]|]; try discriminate.
  intros H. injection H as <- <-. repeat split.
Qed.

Lemma ModuleValue_attr_variant_witness :
  _has_module net "scale" = false /\ _has_method net "scale" = true.
Proof.
  destruct (ModuleValue_attr_variant no_host net loc0 "scale" fresh_method
              fresh_method (MethodValue net scale_method) eq_refl)
    as [_ [_ [_ [Hmod [Hmeth _]]]]].
  split; assumption.
Defined.

(** X13.  A buffer is resolved by [attr] as a parameter is: when no
    submodule or method has the name and [_has_parameter] or [_has_buffer]
    knows it, [attr] returns a simple value. *)
Theorem ModuleValue_attr_buffer (py_cast : Module -> Py.object)
    (this : Module) (loc : SourceRange) (field : string) (m : Method) :
  _has_module this field = false ->
  _has_method this field = false ->
  _has_parameter this field || _has_buffer this field = true ->
  exists input m',
    attr py_cast (ModuleValue this) loc field m =
    (Return (SimpleValue input), m').
Proof.
  simpl. unfold ModuleValue_attr, _has_module, _has_method, _has_parameter,
    _has_buffer.
  destruct (find_module this field); [discriminate|].
  destruct (find_method this field); [discriminate|].
  destruct (find_parameter this field) as [p|]; [|discriminate].
  intros _ _ _. unfold bind, get_or_add_parameter.
  destruct (find_slot (slot p) (member_inputs m));
    eexists; eexists; reflexivity.
Qed.

Lemma ModuleValue_attr_buffer_witness :
  exists input m',
    attr no_host (ModuleValue batch_norm) loc0 "running_mean" fresh_method =
    (Return (SimpleValue input), m').
Proof.
  exact (ModuleValue_attr_buffer no_host batch_norm loc0 "running_mean"
           fresh_method eq_refl eq_refl eq_refl).
Defined.

(** X14.  [attr] on a module value leaves the method under construction
    as it was, whether it returns or throws, unless the field resolves to
    a parameter or buffer. *)
Theorem ModuleValue_attr_keeps_method (py_cast : Module -> Py.object)
    (this : Module) (loc : SourceRange) (field : string) (m : Method) :
  _has_module this field = true \/ _has_method this field = true \/
  _has_parameter this field || _has_buffer this field = false ->
  snd (attr py_cast (ModuleValue this) loc field m) = m.
Proof.
  simpl. unfold ModuleValue_attr, _has_module, _has_method, _has_parameter,
    _has_buffer.
  destruct (find_module this field); [reflexivity|].
  destruct (find_method this field); [reflexivity|].
  destruct (find_parameter this field) as [p|].
  { intros [H|[H|H]]; try discriminate H.
    destruct (is_buffer p); discriminate H. }
  intros _.
  destruct (Py.getattr_default (py_cast this) field Py.None_) as [a|];
    [|reflexivity].
  destruct (Py.isinstance_function a || Py.isinstance_nn_Module a);
    [reflexivity|].
  unfold bind, attr_contains.
  destruct (Py.GetAttrString (py_cast this) "_constants_set") as [cs|];
    [|reflexivity].
  destruct (Py.contains cs field) as [[|]|]; reflexivity.
Qed.

Lemma ModuleValue_attr_keeps_method_witness :
  snd (attr (host_with_data []) (ModuleValue net) loc0 "hidden_size"
            fresh_method) = fresh_method.
Proof.
  apply (ModuleValue_attr_keeps_method (host_with_data []) net loc0
           "hidden_size" fresh_method).
  right. right. reflexivity.
Defined.

(** X15.  [attr] on a Python value or a constant value never changes the
    method under construction, and a constant value resolves a field as
    the Python value of the same object does: what it returns is never a
    constant value. *)
Theorem PythonValue_attr_keeps_method (py_cast : Module -> Py.object)
    (self : Py.object) (loc : SourceRange) (field : string) (m : Method) :
  snd (attr py_cast (PythonValue self) loc field m) = m
  /\ attr py_cast (ConstantPythonValue self) loc field m =
     attr py_cast (PythonValue self) loc field m
  /\ (forall obj m',
        attr py_cast (ConstantPythonValue self) loc field m <>
        (Return (ConstantPythonValue obj), m')).
Proof.
  split; [apply PythonValue_attr_state|]. split; [reflexivity|].
  intros obj m'. simpl.
  unfold PythonValue_attr, bind, PythonValue_getattr.
  destruct (Py.GetAttrString self field) as [member|]; [|discriminate].
  simpl. destruct (_ && _); [discriminate|].
  destruct (_ && _); discriminate.
Qed.

(** ** What a call on a module value calls *)

(** X16.  Calling a module value calls its submodule named "forward" when
    it has one, whatever its methods; failing that, its method "forward";
    failing that and a parameter of that name, a callable attribute
    "forward" of its Python object, as a Python value. *)
Theorem ModuleValue_call_target (py_cast : Module -> Py.object)
    (this : Module) (loc : SourceRange) (inputs : list Value)
    (attributes : list Attribute) (n_outputs : nat) (m : Method) :
  (forall nm, find_module this "forward" = Some nm ->
     call py_cast (ModuleValue this) loc inputs attributes n_outputs m =
     call py_cast (ModuleValue (module nm)) loc inputs attributes n_outputs m)
  /\ (forall method,
        _has_module this "forward" = false ->
        find_method this "forward" = Some method ->
        call py_cast (ModuleValue this) loc inputs attributes n_outputs m =
        MethodValue_call method loc inputs attributes n_outputs m)
  /\ (forall a,
        _has_module this "forward" = false ->
        _has_method this "forward" = false ->
        find_parameter this "forward" = None ->
        Py.GetAttrString (py_cast this) "forward" = Some a ->
        Py.isinstance_function a = true ->
        call py_cast (ModuleValue this) loc inputs attributes n_outputs m =
        PythonValue_call a loc inputs attributes n_outputs m).
Proof.
  unfold _has_module, _has_method. split; [|split].
  - intros nm Hmod. rewrite call_ModuleValue. unfold ModuleValue_attr.
    rewrite Hmod. reflexivity.
  - intros method Hmod Hmeth. rewrite call_ModuleValue. unfold ModuleValue_attr.
    destruct (find_module this "forward"); [discriminate Hmod|].
    rewrite Hmeth. simpl. simp call. reflexivity.
  - intros a Hmod Hmeth Hpar Hattr Hfun. rewrite call_ModuleValue.
    unfold ModuleValue_attr.
    destruct (find_module this "forward"); [discriminate Hmod|].
    destruct (find_method this "forward"); [discriminate Hmeth|].
    rewrite Hpar. unfold Py.getattr_default. rewrite Hattr, Hfun. simpl.
    simp call. reflexivity.
Qed.

Lemma ModuleValue_call_target_witness :
  call no_host (ModuleValue wrapper) loc0 two_inputs [] 2 fresh_method =
    call no_host (ModuleValue net) loc0 two_inputs [] 2 fresh_method
  /\ call no_host (ModuleValue net) loc0 two_inputs [] 2 fresh_method =
     MethodValue_call forward_method loc0 two_inputs [] 2 fresh_method
  /\ call (host_with_forward python_forward) (ModuleValue plain_module) loc0
          two_inputs [] 1 fresh_method =
     PythonValue_call python_forward loc0 two_inputs [] 1 fresh_method.
Proof.
  split; [|split].
  - exact (proj1 (ModuleValue_call_target no_host wrapper loc0 two_inputs []
                    2 fresh_method)
             {| name := "forward"; module := net |} eq_refl).
  - exact (proj1 (proj2 (ModuleValue_call_target no_host net loc0 two_inputs
                           [] 2 fresh_method))
             forward_method eq_refl eq_refl).
  - exact (proj2 (proj2 (ModuleValue_call_target
                           (host_with_forward python_forward) plain_module
                           loc0 two_inputs [] 1 fresh_method))
             python_forward eq_refl eq_refl eq_refl eq_refl eq_refl).
Defined.

(** ** Unrolling a module value *)

(** X17.  [unrolledFor] on a module value fails as not iterable unless
    the Python object of the module is a constant module list, and throws
    when iterating that object raises.  Otherwise it returns one value per
    element, in order: a module value for a script module, a constant
    value for anything else.  It never changes the method under
    construction. *)
Theorem ModuleValue_unrolledFor_result (py_cast : Module -> Py.object)
    (isinstance_ConstModuleList : Py.object -> bool)
    (iterate : Py.object -> option (list list_item))
    (this : Module) (loc : SourceRange) (m : Method) :
  (isinstance_ConstModuleList (py_cast this) = false ->
     ModuleValue_unrolledFor py_cast isinstance_ConstModuleList iterate
       this loc m =
     (Throw (NotSupported loc (kind (ModuleValue this)) CanUnroll), m))
  /\ (isinstance_ConstModuleList (py_cast this) = true ->
      iterate (py_cast this) = None ->
      ModuleValue_unrolledFor py_cast isinstance_ConstModuleList iterate
        this loc m = (Throw error_already_set, m))
  /\ (forall items,
        isinstance_ConstModuleList (py_cast this) = true ->
        iterate (py_cast this) = Some items ->
        exists result,
          ModuleValue_unrolledFor py_cast isinstance_ConstModuleList iterate
            this loc m = (Return result, m)
          /\ List.length result = List.length items
          /\ (forall i r, nth_error items i = Some (ScriptModule_item r) ->
                          nth_error result i = Some (ModuleValue r))
          /\ (forall i obj, nth_error items i = Some (Object_item obj) ->
                            nth_error result i = Some (ConstantPythonValue obj))).
Proof.
  unfold ModuleValue_unrolledFor. split; [|split].
  - intros ->. reflexivity.
  - intros -> ->. reflexivity.
  - intros items -> ->. eexists. split; [reflexivity|].
    split; [apply length_map|].
    split; intros i x Hi; rewrite nth_error_map, Hi; reflexivity.
Qed.

Lemma ModuleValue_unrolledFor_result_witness :
  ModuleValue_unrolledFor (fun _ => const_list_object)
    sample_isinstance_ConstModuleList sample_iterate net loc0 fresh_method =
    (Return [ModuleValue layer1; ConstantPythonValue (Py.Int 3)], fresh_method)
  /\ ModuleValue_unrolledFor no_host
       sample_isinstance_ConstModuleList sample_iterate net loc0 fresh_method =
     (Throw (NotSupported loc0 "module" CanUnroll), fresh_method).
Proof.
  split.
  - destruct (proj2 (proj2 (ModuleValue_unrolledFor_result
                              (fun _ => const_list_object)
                              sample_isinstance_ConstModuleList sample_iterate
                              net loc0 fresh_method))
                [ScriptModule_item layer1; Object_item (Py.Int 3)]
                eq_refl eq_refl)
      as [result [Hrun _]].
    rewrite Hrun. vm_compute in Hrun. injection Hrun as <-. reflexivity.
  - exact (proj1 (ModuleValue_unrolledFor_result no_host
                    sample_isinstance_ConstModuleList sample_iterate
                    net loc0 fresh_method) eq_refl).
Defined.

(** The resolver on the sample callback. *)
Lemma pythonResolver_result_witness :
  pythonResolver sample_rcb "undefined_name" = Return None
  /\ pythonResolver sample_rcb "" = Throw error_already_set
  /\ pythonResolver sample_rcb "width" = Return (Some (PythonValue (Py.Int 64))).
Proof.
  split; [|split].
  - exact (proj2 (proj1 (pythonResolver_result sample_rcb "undefined_name"))
             eq_refl).
  - exact (proj2 (proj1 (proj2 (pythonResolver_result sample_rcb "")))
             eq_refl).
  - apply (proj2 (proj2 (pythonResolver_result sample_rcb "width"))).
    exists (Py.Int 64). split; [reflexivity|]. split; [reflexivity|].
    discriminate.
Defined.
